(** * Model selection for per-word hidden Markov models

    A shallow embedding of [my_model_selectors.py]: the base class
    [ModelSelector] with [base_model], and the four strategies
    [SelectorConstant], [SelectorBIC], [SelectorDIC] and [SelectorCV].

    Python floats are IEEE 754 binary64 numbers and are modelled by Rocq's
    primitive floats, so [nan] and [-inf] behave as they do in the program.
    Python integers are [Z]; lengths and list indices are [nat].  The
    program is imperative and catches exceptions: it is written in a small
    state-and-exception monad [Py] over a [World] that holds the selector
    object, the process-wide warning filters, the standard output and the
    record of the calls made to the external collaborators (hmmlearn,
    scikit-learn, asl_utils). *)

From Stdlib Require Import ZArith List String Bool Lia DecimalString.
From Stdlib Require Import Floats.
Import ListNotations.

Set Implicit Arguments.

(** ** Data model *)

(** A feature vector, one instance (an ordered sequence of feature vectors)
    and a feature matrix (rows of feature vectors). *)
Definition frame := list float.
Definition instance := list frame.
Definition matrix := list frame.

(** [X.shape[0]] and [X.shape[1]]. *)
Definition shape0 (X : matrix) : nat := List.length X.
Definition shape1 (X : matrix) : nat :=
  match X with
  | [] => 0
  | row :: _ => List.length row
  end.

(** A Python [dict] with string keys.  Iteration follows insertion order,
    which [SelectorDIC] depends on, so the entries are kept as a list. *)
Definition dict (V : Type) := list (string * V).

Fixpoint getitem {V : Type} (d : dict V) (k : string) : option V :=
  match d with
  | [] => None
  | (k', v) :: d' => if String.eqb k' k then Some v else getitem d' k
  end.

(** [range(a, b)] *)
Definition range (a b : Z) : list Z :=
  map (fun i => (a + Z.of_nat i)%Z) (seq 0 (Z.to_nat (b - a))).

(** ** The external collaborators *)

Module hmm.

(** The constructor arguments of [GaussianHMM]. *)
Record hyper := {
  n_components : Z;
  covariance_type : string;
  n_iter : Z;
  random_state : Z;
  verbose : bool
}.

End hmm.

(** The fitting and scoring engine of hmmlearn, the logarithm of the math
    library and the addition loop of numpy are black boxes.  [em_fit] and
    [forward_score] answer [None] where the library raises, and
    [forward_score] hands the log-likelihood over as a Python float;
    [math_log_of_int n] is [math.log(n)] for a positive Python integer [n];
    [add_reduce l] is [np.add.reduce] of a non-empty list of floats, and
    [add_reduce_warns l] tells whether one of its additions overflows or is
    invalid, of which numpy warns. *)
Class Externals := {
  fitted : Type;
  em_fit : hmm.hyper -> matrix -> list nat -> option fitted;
  forward_score : hmm.hyper -> fitted -> matrix -> list nat -> option float;
  math_log_of_int : Z -> float;
  add_reduce : list float -> float;
  add_reduce_warns : list float -> bool
}.

(** ** Numbers *)

Module np.

(** [float(z)] for a Python integer: the nearest binary64 number, ties to
    even, as CPython and numpy convert integers of any size.  An integer
    that is too large rounds to an infinity here; where Python raises
    OverflowError for it, the caller checks (see [float_of_int]). *)
Definition float_of_Z (z : Z) : float :=
  SF2Prim (binary_normalize prec emax z 0 false).

(** [np.sum] of a Python list of floats: 0.0 for the empty list, and
    otherwise what numpy's addition reduces the elements to.  In which order
    numpy adds the elements of a longer list is the library's business:
    [add_reduce]. *)
Definition sum {E : Externals} (l : list float) : float :=
  match l with
  | [] => 0%float
  | _ :: _ => add_reduce l
  end.

(** The value [np.mean] returns for a Python list of floats: the sum
    divided by the count.  On the empty list this is [0.0 / 0], that is
    [nan]. *)
Definition mean {E : Externals} (l : list float) : float :=
  PrimFloat.div (sum l) (float_of_Z (Z.of_nat (List.length l))).

(** Whether [np.mean] issues a RuntimeWarning on the way: on the empty
    list ("Mean of empty slice", then the invalid division), and otherwise
    when the sum does.  The division by a positive count neither overflows
    nor is invalid. *)
Definition mean_warns {E : Externals} (l : list float) : bool :=
  match l with
  | [] => true
  | _ :: _ => add_reduce_warns l
  end.

(** Whether an addition or subtraction of [x] and [y] with result [r]
    raises one of the floating-point exceptions numpy warns of in its
    default error state: an invalid operation, which gives a [nan] from
    operands that are none, or an overflow, which gives an infinity from
    finite operands. *)
Definition flagged (x y r : float) : bool :=
  (PrimFloat.is_nan r && negb (PrimFloat.is_nan x || PrimFloat.is_nan y))
  || (PrimFloat.is_infinity r && PrimFloat.is_finite x && PrimFloat.is_finite y).

(** Whether the subtraction of numpy scalars warns. *)
Definition sub_warns (x y : float) : bool := flagged x y (PrimFloat.sub x y).

(** [np.argmin]: index of the first minimum; a [nan] counts as minimal and
    the first one wins.  The scan is numpy's: an entry replaces the
    running minimum when [entry >= minimum] is false. *)
Fixpoint argmin_scan (mp : float) (min_ind i : nat) (l : list float) : nat :=
  match l with
  | [] => min_ind
  | x :: l' =>
      if negb (PrimFloat.leb mp x)
      then if PrimFloat.is_nan x then i else argmin_scan x i (S i) l'
      else argmin_scan mp min_ind (S i) l'
  end.

(** [None] stands for the ValueError numpy raises on an empty sequence. *)
Definition argmin (l : list float) : option nat :=
  match l with
  | [] => None
  | x :: l' => Some (if PrimFloat.is_nan x then 0%nat else argmin_scan x 0 1 l')
  end.

(** [np.argmax]: the mirror image, an entry replaces the running maximum
    when [entry <= maximum] is false. *)
Fixpoint argmax_scan (mp : float) (max_ind i : nat) (l : list float) : nat :=
  match l with
  | [] => max_ind
  | x :: l' =>
      if negb (PrimFloat.leb x mp)
      then if PrimFloat.is_nan x then i else argmax_scan x i (S i) l'
      else argmax_scan mp max_ind (S i) l'
  end.

Definition argmax (l : list float) : option nat :=
  match l with
  | [] => None
  | x :: l' => Some (if PrimFloat.is_nan x then 0%nat else argmax_scan x 0 1 l')
  end.

End np.

(** A fitted [GaussianHMM]: [fit] returns the estimator itself, which keeps
    its constructor arguments and has learnt [n_features] from the number of
    columns of the data. *)
Record GaussianHMM `{Externals} := {
  args : hmm.hyper;
  n_features : nat;
  learnt : fitted
}.

(** ** The selector object and the world *)

Module ModelSelector.

Record t := {
  words : dict (list instance);
  hwords : dict (matrix * list nat);
  sequences : list instance;
  X : matrix;
  lengths : list nat;
  this_word : string;
  n_constant : Z;
  min_n_components : Z;
  max_n_components : Z;
  random_state : Z;
  verbose : bool
}.

End ModelSelector.

(** The exceptions that can occur.  [FitError] and [ScoreError] stand for
    whatever hmmlearn raises when training or scoring fails. *)
Inductive exn :=
| KeyError
| AttributeError
| ValueError
| IndexError
| UnboundLocalError
| OverflowError
| RuntimeWarning
| FitError
| ScoreError.

(** How a statement or call ends. *)
Inductive outcome (A : Type) :=
| Return (a : A)
| Raise (e : exn).

Arguments Raise {A} e.

Section Monad.

Context {E : Externals}.

(** The calls made to the external collaborators, in the order made. *)
Inductive call :=
| fit_call (a : hmm.hyper) (X : matrix) (lengths : list nat)
| score_call (m : GaussianHMM) (X : matrix) (lengths : list nat)
| KFold_call (n_splits : nat)
| split_call (n_samples : nat)
| combine_call (split_index_list : list nat).

(** Everything a [select()] call can read or write: the selector object
    (whose [words] and [hwords] are the two catalogs), the warning filters
    of the process, what has been printed and the calls made so far. *)
Record World := {
  self : ModelSelector.t;
  filters : list (string * string);
  stdout : list string;
  calls : list call
}.

(** A piece of Python: from the world before to its outcome and the world
    after, which is kept also when the piece raises. *)
Definition Py (A : Type) : Type := World -> outcome A * World.

Definition ret {A : Type} (a : A) : Py A := fun w => (Return a, w).

Definition bind {A B : Type} (c : Py A) (k : A -> Py B) : Py B :=
  fun w =>
    match c w with
    | (Return a, w') => k a w'
    | (Raise e, w') => (Raise e, w')
    end.

Definition raise {A : Type} (e : exn) : Py A := fun w => (Raise e, w).

(** [try: c  except: h] with a bare [except], which catches everything.
    What [c] did to the world before it raised stays done. *)
Definition try_except {A : Type} (c h : Py A) : Py A :=
  fun w =>
    match c w with
    | (Return a, w') => (Return a, w')
    | (Raise _, w') => h w'
    end.

(** A [for] loop over [l] whose body updates the local variables [s]. *)
Fixpoint for_each {A S : Type} (l : list A) (body : A -> S -> Py S) (s : S) : Py S :=
  match l with
  | [] => ret s
  | a :: l' => bind (body a s) (for_each l' body)
  end.

End Monad.

Declare Scope py_scope.
Delimit Scope py_scope with py.
Notation "x <- c ;; k" := (bind c (fun x => k))
  (at level 61, c at next level, right associativity) : py_scope.
Notation "' pat <- c ;; k" := (bind c (fun x => match x with pat => k end))
  (at level 61, pat pattern, c at next level, right associativity) : py_scope.
Notation "c ;; k" := (bind c (fun _ => k))
  (at level 61, right associativity) : py_scope.
Open Scope py_scope.

Section Selectors.

Context {E : Externals}.

(** [self.f] *)
Definition attr {A : Type} (f : ModelSelector.t -> A) : Py A :=
  fun w => (Return (f (self w)), w).

Definition record (c : call) : Py unit :=
  fun w => (Return tt,
            {| self := self w; filters := filters w; stdout := stdout w;
               calls := calls w ++ [c] |}).

Definition print (s : string) : Py unit :=
  fun w => (Return tt,
            {| self := self w; filters := filters w; stdout := stdout w ++ [s];
               calls := calls w |}).

Definition filter_eqb (a b : string * string) : bool :=
  String.eqb (fst a) (fst b) && String.eqb (snd a) (snd b).

Fixpoint remove_first (item : string * string) (l : list (string * string)) :=
  match l with
  | [] => []
  | x :: l' => if filter_eqb x item then l' else x :: remove_first item l'
  end.

(** [warnings.filterwarnings(action, category=category)]: the entry moves
    to the front of the process-wide filter list. *)
Definition filterwarnings (action category : string) : Py unit :=
  fun w => (Return tt,
            {| self := self w;
               filters := (action, category) :: remove_first (action, category) (filters w);
               stdout := stdout w; calls := calls w |}).

(** [GaussianHMM(...).fit(X, lengths)] *)
Definition GaussianHMM_fit (a : hmm.hyper) (X : matrix) (lengths : list nat)
  : Py GaussianHMM :=
  record (fit_call a X lengths) ;;
  match em_fit a X lengths with
  | Some p => ret {| args := a; n_features := shape1 X; learnt := p |}
  | None => raise FitError
  end.

(** [model.score(X, lengths)], where [model] may be [None]. *)
Definition score (model : option GaussianHMM) (X : matrix) (lengths : list nat)
  : Py float :=
  match model with
  | None => raise AttributeError
  | Some m =>
      record (score_call m X lengths) ;;
      match forward_score (args m) (learnt m) X lengths with
      | Some l => ret l
      | None => raise ScoreError
      end
  end.

(** [model.n_features], where [model] may be [None]. *)
Definition get_n_features (model : option GaussianHMM) : Py Z :=
  match model with
  | None => raise AttributeError
  | Some m => ret (Z.of_nat (n_features m))
  end.

(** [math.log(n)] for an integer [n]: a domain error unless [n > 0]. *)
Definition math_log (n : nat) : Py float :=
  match n with
  | O => raise ValueError
  | S _ => ret (math_log_of_int (Z.of_nat n))
  end.

(** The conversion Python makes of the integer in [integer * float]: it
    raises OverflowError for an integer too large for a float. *)
Definition float_of_int (z : Z) : Py float :=
  if PrimFloat.is_infinity (np.float_of_Z z)
  then raise OverflowError
  else ret (np.float_of_Z z).

(** Whether a warning filter of the given category applies to a
    RuntimeWarning: the category is RuntimeWarning itself or Warning, its
    only base class that is a warning category. *)
Definition matches_RuntimeWarning (category : string) : bool :=
  String.eqb category "RuntimeWarning" || String.eqb category "Warning".

(** Whether the filters turn a RuntimeWarning into an exception: the first
    filter that applies decides, and its action must be "error"; when none
    applies the default action shows the warning and goes on. *)
Fixpoint raises_RuntimeWarning (fs : list (string * string)) : bool :=
  match fs with
  | [] => false
  | (action, category) :: rest =>
      if matches_RuntimeWarning category
      then String.eqb action "error"
      else raises_RuntimeWarning rest
  end.

(** [warnings.warn(..., RuntimeWarning)] *)
Definition warn_RuntimeWarning : Py unit :=
  fun w => if raises_RuntimeWarning (filters w)
           then (Raise RuntimeWarning, w)
           else (Return tt, w).

(** [np.mean(l)]: the warnings numpy issues on the way go through the
    warning filters before the value comes back. *)
Definition np_mean (l : list float) : Py float :=
  (if np.mean_warns l then warn_RuntimeWarning else ret tt) ;;
  ret (np.mean l).

(** [x - y] where [y] is a numpy scalar, as [np.mean] returns: the
    subtraction is numpy's, which warns of overflow and of an invalid
    operation. *)
Definition np_sub (x y : float) : Py float :=
  (if np.sub_warns x y then warn_RuntimeWarning else ret tt) ;;
  ret (x - y)%float.

(** [np.argmin(l)] and [np.argmax(l)] as Python integers. *)
Definition np_argmin (l : list float) : Py Z :=
  match np.argmin l with
  | Some i => ret (Z.of_nat i)
  | None => raise ValueError
  end.

Definition np_argmax (l : list float) : Py Z :=
  match np.argmax l with
  | Some i => ret (Z.of_nat i)
  | None => raise ValueError
  end.

Definition str (z : Z) : string := NilZero.string_of_int (Z.to_int z).

(** ** ModelSelector *)

Definition ModelSelector_init
  (all_word_sequences : dict (list instance))
  (all_word_Xlengths : dict (matrix * list nat))
  (this_word : string)
  (n_constant min_n_components max_n_components random_state : Z)
  (verbose : bool) : outcome ModelSelector.t :=
  match getitem all_word_sequences this_word with
  | None => Raise KeyError
  | Some seqs =>
      match getitem all_word_Xlengths this_word with
      | None => Raise KeyError
      | Some (X, lengths) =>
          Return {| ModelSelector.words := all_word_sequences;
                    ModelSelector.hwords := all_word_Xlengths;
                    ModelSelector.sequences := seqs;
                    ModelSelector.X := X;
                    ModelSelector.lengths := lengths;
                    ModelSelector.this_word := this_word;
                    ModelSelector.n_constant := n_constant;
                    ModelSelector.min_n_components := min_n_components;
                    ModelSelector.max_n_components := max_n_components;
                    ModelSelector.random_state := random_state;
                    ModelSelector.verbose := verbose |}
      end
  end.

Definition base_model (num_states : Z) : Py (option GaussianHMM) :=
  filterwarnings "ignore" "DeprecationWarning" ;;
  try_except
    (random_state <- attr ModelSelector.random_state ;;
     X <- attr ModelSelector.X ;;
     lengths <- attr ModelSelector.lengths ;;
     hmm_model <- GaussianHMM_fit
                    {| hmm.n_components := num_states;
                       hmm.covariance_type := "diag";
                       hmm.n_iter := 1000;
                       hmm.random_state := random_state;
                       hmm.verbose := false |} X lengths ;;
     verbose <- attr ModelSelector.verbose ;;
     (if verbose : bool
      then this_word <- attr ModelSelector.this_word ;;
           print ("model created for " ++ this_word ++ " with "
                  ++ str num_states ++ " states")
      else ret tt) ;;
     ret (Some hmm_model))
    (verbose <- attr ModelSelector.verbose ;;
     (if verbose : bool
      then this_word <- attr ModelSelector.this_word ;;
           print ("failure on " ++ this_word ++ " with "
                  ++ str num_states ++ " states")
      else ret tt) ;;
     ret None).

(** ** SelectorConstant *)

Definition SelectorConstant_select : Py (option GaussianHMM) :=
  best_num_components <- attr ModelSelector.n_constant ;;
  base_model best_num_components.

(** ** SelectorBIC *)

Definition SelectorBIC_body (states : Z) (bic_scores : list float)
  : Py (list float) :=
  try_except
    (model_bic <- base_model states ;;
     X <- attr ModelSelector.X ;;
     lengths <- attr ModelSelector.lengths ;;
     log_likelihood <- score model_bic X lengths ;;
     d <- get_n_features model_bic ;;
     let p := (states ^ 2 + 2 * states * d - 1)%Z in
     X <- attr ModelSelector.X ;;
     logN <- math_log (shape0 X) ;;
     p' <- float_of_int p ;;
     let BIC := (np.float_of_Z (-2) * log_likelihood + p' * logN)%float in
     ret (bic_scores ++ [BIC]))
    (ret bic_scores).

Definition SelectorBIC_select : Py (option GaussianHMM) :=
  filterwarnings "ignore" "DeprecationWarning" ;;
  min_n <- attr ModelSelector.min_n_components ;;
  max_n <- attr ModelSelector.max_n_components ;;
  bic_scores <- for_each (range min_n (max_n + 1)) SelectorBIC_body [] ;;
  best_state <- match bic_scores with
                | [] => attr ModelSelector.n_constant
                | _ :: _ => np_argmin bic_scores
                end ;;
  base_model (best_state + 2).

(** ** SelectorDIC *)

(** One turn of [for word, (X, lengths) in self.hwords.items()]. *)
Definition SelectorDIC_other (model : option GaussianHMM)
  (item : string * (matrix * list nat)) (other_words_scores : list float)
  : Py (list float) :=
  let '(word, (X, lengths)) := item in
  this_word <- attr ModelSelector.this_word ;;
  if negb (String.eqb word this_word)
  then l <- score model X lengths ;;
       ret (other_words_scores ++ [l])
  else ret other_words_scores.

Definition SelectorDIC_body (states : Z) (dic_scores : list float)
  : Py (list float) :=
  try_except
    (model <- base_model states ;;
     hwords <- attr ModelSelector.hwords ;;
     other_words_scores <- for_each hwords (SelectorDIC_other model) [] ;;
     X <- attr ModelSelector.X ;;
     lengths <- attr ModelSelector.lengths ;;
     l_self <- score model X lengths ;;
     l_others <- np_mean other_words_scores ;;
     DIC <- np_sub l_self l_others ;;
     ret (dic_scores ++ [DIC]))
    (ret dic_scores).

Definition SelectorDIC_select : Py (option GaussianHMM) :=
  filterwarnings "ignore" "DeprecationWarning" ;;
  min_n <- attr ModelSelector.min_n_components ;;
  max_n <- attr ModelSelector.max_n_components ;;
  dic_scores <- for_each (range min_n (max_n + 1)) SelectorDIC_body [] ;;
  best_state <- match dic_scores with
                | [] => attr ModelSelector.n_constant
                | _ :: _ => np_argmax dic_scores
                end ;;
  base_model (best_state + 2).

(** ** SelectorCV *)

(** [sklearn.model_selection.KFold] without shuffling: consecutive test
    blocks, the first [n_samples mod n_splits] of them one longer, each
    paired with the remaining indices as the training part. *)
Definition fold_sizes (n_samples n_splits : nat) : list nat :=
  map (fun i => n_samples / n_splits
                + (if i <? n_samples mod n_splits then 1 else 0))%nat
      (seq 0 n_splits).

Fixpoint fold_indices (n_samples current : nat) (sizes : list nat)
  : list (list nat * list nat) :=
  match sizes with
  | [] => []
  | size :: rest =>
      let stop := (current + size)%nat in
      (seq 0 current ++ seq stop (n_samples - stop), seq current size)
        :: fold_indices n_samples stop rest
  end.

(** [KFold(n_splits=k)] raises unless [k >= 2]. *)
Definition KFold (n_splits : nat) : Py nat :=
  record (KFold_call n_splits) ;;
  if (n_splits <=? 1)%nat then raise ValueError else ret n_splits.

(** [split_method.split(sequences)] raises when there are fewer samples
    than folds. *)
Definition KFold_split (n_splits : nat) (sequences : list instance)
  : Py (list (list nat * list nat)) :=
  let n_samples := List.length sequences in
  record (split_call n_samples) ;;
  if (n_samples <? n_splits)%nat then raise ValueError
  else ret (fold_indices n_samples 0 (fold_sizes n_samples n_splits)).

(** Modelled from the spec: [combine_sequences] of [asl_utils], which is
    not among the sources.  It concatenates the feature rows of the
    selected instances into one matrix and lists their row counts. *)
Fixpoint concat_selected (split_index_list : list nat) (sequences : list instance)
  : option (matrix * list nat) :=
  match split_index_list with
  | [] => Some ([], [])
  | idx :: rest =>
      match nth_error sequences idx, concat_selected rest sequences with
      | Some s, Some (X, lengths) => Some (s ++ X, List.length s :: lengths)
      | _, _ => None
      end
  end.

Definition combine_sequences (split_index_list : list nat) (sequences : list instance)
  : Py (matrix * list nat) :=
  record (combine_call split_index_list) ;;
  match concat_selected split_index_list sequences with
  | Some r => ret r
  | None => raise IndexError
  end.

(** The local variables of [SelectorCV.select] that live across loop
    turns.  [_model] is [None] while the name is still unbound. *)
Record cv_locals := {
  best_score : float;
  best_model : option GaussianHMM;
  _model : option GaussianHMM
}.

(** Reading a local variable that may be unbound. *)
Definition local {A : Type} (v : option A) : Py A :=
  match v with
  | Some a => ret a
  | None => raise UnboundLocalError
  end.

(** One turn of [for train_x, test_x in split_method.split(...)].  The
    [try] block has two statements; the assignment to [_model] made by the
    first survives a failure of the second, which the inner handler
    renders.  [np.mean] stands here by its value: the loop only runs after
    [warnings.filterwarnings("ignore")] has put the filter that ignores
    every warning in front, and nothing the loop does moves it (see
    [np_mean_ignored] and [SelectorCV_loop_filters]). *)
Definition SelectorCV_fold (n : Z) (split : list nat * list nat) (loc : cv_locals)
  : Py cv_locals :=
  let '(train_x, test_x) := split in
  sequences <- attr ModelSelector.sequences ;;
  '(X_train, Y_train) <- combine_sequences train_x sequences ;;
  sequences <- attr ModelSelector.sequences ;;
  '(X_test, Y_test) <- combine_sequences test_x sequences ;;
  '(_model', log_likelihood) <-
    try_except
      (random_state <- attr ModelSelector.random_state ;;
       m <- GaussianHMM_fit
              {| hmm.n_components := n;
                 hmm.covariance_type := "diag";
                 hmm.n_iter := 1000;
                 hmm.random_state := random_state;
                 hmm.verbose := false |} X_train Y_train ;;
       try_except
         (l <- score (Some m) X_test Y_test ;;
          ret (Some m, [l]))
         (ret (Some m, [])))
      (ret (_model loc, [])) ;;
  if (best_score loc <? np.mean log_likelihood)%float
  then m <- local _model' ;;
       ret {| best_score := np.mean log_likelihood;
              best_model := Some m;
              _model := _model' |}
  else ret {| best_score := best_score loc;
              best_model := best_model loc;
              _model := _model' |}.

Definition SelectorCV_body (n : Z) (loc : cv_locals) : Py cv_locals :=
  sequences <- attr ModelSelector.sequences ;;
  if (List.length sequences <=? 1)%nat
  then ret loc
  else
    sequences <- attr ModelSelector.sequences ;;
    split_method <- KFold (Nat.min 3 (List.length sequences)) ;;
    sequences <- attr ModelSelector.sequences ;;
    folds <- KFold_split split_method sequences ;;
    for_each folds (SelectorCV_fold n) loc.

Definition SelectorCV_select : Py (option GaussianHMM) :=
  filterwarnings "ignore" "Warning" ;;
  min_n <- attr ModelSelector.min_n_components ;;
  max_n <- attr ModelSelector.max_n_components ;;
  loc <- for_each (range min_n (max_n + 1)) SelectorCV_body
           {| best_score := neg_infinity; best_model := None; _model := None |} ;;
  match best_model loc with
  | None =>
      n_constant <- attr ModelSelector.n_constant ;;
      base_model n_constant
  | Some m => ret (Some m)
  end.

End Selectors.

(** ** What the specification says each criterion is *)

Section Criteria.

Context {E : Externals}.

(** The constructor arguments [base_model] passes for [n] states. *)
Definition hyper_for (s : ModelSelector.t) (n : Z) : hmm.hyper :=
  {| hmm.n_components := n;
     hmm.covariance_type := "diag";
     hmm.n_iter := 1000;
     hmm.random_state := ModelSelector.random_state s;
     hmm.verbose := false |}.

(** The model with [n] states trained on the word's full data, if the
    trainer succeeds. *)
Definition trained (s : ModelSelector.t) (n : Z) : option GaussianHMM :=
  match em_fit (hyper_for s n) (ModelSelector.X s) (ModelSelector.lengths s) with
  | Some p => Some {| args := hyper_for s n;
                      n_features := shape1 (ModelSelector.X s);
                      learnt := p |}
  | None => None
  end.

(** The log-likelihood of data under a fitted model, if the scorer
    succeeds. *)
Definition loglik (m : GaussianHMM) (X : matrix) (lengths : list nat) : option float :=
  forward_score (args m) (learnt m) X lengths.

(** The state count a returned model was created with; [None] when no
    model is returned. *)
Definition state_count (r : option GaussianHMM) : option Z :=
  option_map (fun m => hmm.n_components (args m)) r.

(** BIC(n) = -2 L + p ln N with p = n^2 + 2 n d - 1, for a candidate that
    trains and scores; d is the number of feature columns and N the number
    of feature rows of the word's matrix.  There is no value when N is 0,
    where the logarithm is undefined, or when p is too large for a float. *)
Definition BIC (s : ModelSelector.t) (n : Z) : option float :=
  match trained s n with
  | None => None
  | Some m =>
      match loglik m (ModelSelector.X s) (ModelSelector.lengths s) with
      | None => None
      | Some L =>
          let d := Z.of_nat (shape1 (ModelSelector.X s)) in
          let N := shape0 (ModelSelector.X s) in
          let p := (n ^ 2 + 2 * n * d - 1)%Z in
          match N with
          | O => None
          | S _ =>
              if PrimFloat.is_infinity (np.float_of_Z p) then None
              else Some (np.float_of_Z (-2) * L
                         + np.float_of_Z p * math_log_of_int (Z.of_nat N))%float
          end
      end
  end.

(** The catalog entries of every word but the selector's own. *)
Definition other_words (s : ModelSelector.t) : dict (matrix * list nat) :=
  filter (fun item => negb (String.eqb (fst item) (ModelSelector.this_word s)))
         (ModelSelector.hwords s).

(** The log-likelihoods of a list of catalog entries under one model;
    [None] as soon as one of them cannot be scored. *)
Fixpoint logliks (m : GaussianHMM) (items : dict (matrix * list nat))
  : option (list float) :=
  match items with
  | [] => Some []
  | (_, (X, lengths)) :: rest =>
      match loglik m X lengths with
      | None => None
      | Some l =>
          match logliks m rest with
          | None => None
          | Some ls => Some (l :: ls)
          end
      end
  end.

(** DIC(n) = L_self - mean of the other words' log-likelihoods. *)
Definition DIC (s : ModelSelector.t) (n : Z) : option float :=
  match trained s n with
  | None => None
  | Some m =>
      match logliks m (other_words s) with
      | None => None
      | Some others =>
          match loglik m (ModelSelector.X s) (ModelSelector.lengths s) with
          | None => None
          | Some L_self => Some (L_self - np.mean others)%float
          end
      end
  end.

(** The DIC that SelectorDIC records for [n] states under warning filters
    that do ([fatal]) or do not turn a RuntimeWarning into an exception:
    under the former nothing is recorded when the mean or the subtraction
    warns, as the mean does when there is no other word. *)
Definition DIC_at (fatal : bool) (s : ModelSelector.t) (n : Z) : option float :=
  match trained s n with
  | None => None
  | Some m =>
      match logliks m (other_words s) with
      | None => None
      | Some others =>
          match loglik m (ModelSelector.X s) (ModelSelector.lengths s) with
          | None => None
          | Some L_self =>
              if fatal && (np.mean_warns others
                           || np.sub_warns L_self (np.mean others))
              then None
              else Some (L_self - np.mean others)%float
          end
      end
  end.

(** The scores of the candidates that have one, in ascending [n]. *)
Definition score_list (o : option float) : list float :=
  match o with
  | Some b => [b]
  | None => []
  end.

Definition recorded (score_of : Z -> option float) (candidates : list Z) : list float :=
  flat_map (fun n => score_list (score_of n)) candidates.

(** The test log-likelihood a fold contributes for [n] states: the model is
    trained on the fold's training instances and scored on its held-out
    instances; [None] when either step fails. *)
Definition fold_score (s : ModelSelector.t) (n : Z) (split : list nat * list nat)
  : option float :=
  match concat_selected (fst split) (ModelSelector.sequences s),
        concat_selected (snd split) (ModelSelector.sequences s) with
  | Some (X_train, Y_train), Some (X_test, Y_test) =>
      match em_fit (hyper_for s n) X_train Y_train with
      | Some p => forward_score (hyper_for s n) p X_test Y_test
      | None => None
      end
  | _, _ => None
  end.

(** The folds SelectorCV uses for the word: [min(3, number of instances)]
    of them. *)
Definition folds_of (s : ModelSelector.t) : list (list nat * list nat) :=
  let n_samples := List.length (ModelSelector.sequences s) in
  fold_indices n_samples 0 (fold_sizes n_samples (Nat.min 3 n_samples)).

(** Every index of a fold names an instance. *)
Definition valid_split (n_samples : nat) (split : list nat * list nat) : Prop :=
  Forall (fun i => (i < n_samples)%nat) (fst split) /\
  Forall (fun i => (i < n_samples)%nat) (snd split).

(** The candidate state counts, [range(min_n, max_n + 1)]. *)
Definition candidates (s : ModelSelector.t) : list Z :=
  range (ModelSelector.min_n_components s) (ModelSelector.max_n_components s + 1).

(** The average test log-likelihood of [n] states over the folds that
    produced a score; no value when the word has at most one instance or
    when no fold produced a score. *)
Definition cv_average (s : ModelSelector.t) (n : Z) : option float :=
  if (List.length (ModelSelector.sequences s) <=? 1)%nat then None
  else
    match flat_map (fun split => score_list (fold_score s n split)) (folds_of s) with
    | [] => None
    | l => Some (np.mean l)
    end.

(** The (state count, score) records of the candidates that have a score,
    in ascending state count. *)
Definition score_records (score_of : Z -> option float) (cands : list Z)
  : list (Z * float) :=
  flat_map (fun n => match score_of n with
                     | Some b => [(n, b)]
                     | None => []
                     end) cands.

(** The state count of the best record, the first one on ties: a later
    record replaces the best so far only when its score is strictly better. *)
Fixpoint first_best (better : float -> float -> bool) (best : Z * float)
  (rest : list (Z * float)) : Z :=
  match rest with
  | [] => fst best
  | r :: rest' =>
      if better (snd r) (snd best)
      then first_best better r rest'
      else first_best better best rest'
  end.

Definition best_state (better : float -> float -> bool) (records : list (Z * float))
  : option Z :=
  match records with
  | [] => None
  | r :: rest => Some (first_best better r rest)
  end.

(** The state counts [a + i, a + i + 1, ...] paired with a list of scores. *)
Definition numbered (a : Z) (i : nat) (l : list float) : list (Z * float) :=
  combine (map (fun k => a + Z.of_nat k)%Z (seq i (List.length l))) l.

Definition lower (a b : float) : bool := PrimFloat.ltb a b.
Definition higher (a b : float) : bool := PrimFloat.ltb b a.

(** The four strategies behind the one [select()] contract. *)
Inductive strategy := Constant | ByBIC | ByDIC | ByCV.

Definition select (k : strategy) : Py (option GaussianHMM) :=
  match k with
  | Constant => SelectorConstant_select
  | ByBIC => SelectorBIC_select
  | ByDIC => SelectorDIC_select
  | ByCV => SelectorCV_select
  end.

(** Two selector objects that differ at most in their verbosity flag. *)
Definition same_inputs (s1 s2 : ModelSelector.t) : Prop :=
  ModelSelector.words s1 = ModelSelector.words s2 /\
  ModelSelector.hwords s1 = ModelSelector.hwords s2 /\
  ModelSelector.sequences s1 = ModelSelector.sequences s2 /\
  ModelSelector.X s1 = ModelSelector.X s2 /\
  ModelSelector.lengths s1 = ModelSelector.lengths s2 /\
  ModelSelector.this_word s1 = ModelSelector.this_word s2 /\
  ModelSelector.n_constant s1 = ModelSelector.n_constant s2 /\
  ModelSelector.min_n_components s1 = ModelSelector.min_n_components s2 /\
  ModelSelector.max_n_components s1 = ModelSelector.max_n_components s2 /\
  ModelSelector.random_state s1 = ModelSelector.random_state s2.

(** A computation leaves the selector object, catalogs included, as it
    found it. *)
Definition keeps_self {A : Type} (c : Py A) : Prop :=
  forall w, self (snd (c w)) = self w.

(** Two worlds whose selectors differ at most in verbosity and whose
    warning filters agree on whether a RuntimeWarning is an error. *)
Definition alike (w1 w2 : World) : Prop :=
  same_inputs (self w1) (self w2) /\
  raises_RuntimeWarning (filters w1) = raises_RuntimeWarning (filters w2).

(** The result of a computation depends on nothing in the world but the
    selector object, up to its verbosity flag, and on whether the warning
    filters make a RuntimeWarning an error; and the latter stays in step. *)
Definition blind {A : Type} (c : Py A) : Prop :=
  forall w1 w2, alike w1 w2 ->
    fst (c w1) = fst (c w2) /\
    raises_RuntimeWarning (filters (snd (c w1)))
    = raises_RuntimeWarning (filters (snd (c w2))).

(** A warning filter entry moved to the front of the list. *)
Definition pushed (item : string * string) (fs : list (string * string))
  : list (string * string) :=
  item :: remove_first item fs.

(** The two entries the selectors install. *)
Definition ignore_deprecation : string * string := ("ignore", "DeprecationWarning")%string.
Definition ignore_all : string * string := ("ignore", "Warning")%string.

(** A computation leaves the warning filters as it found them. *)
Definition keeps_filters {A : Type} (c : Py A) : Prop :=
  forall w, filters (snd (c w)) = filters w.

(** A computation does nothing to the warning filters but, possibly, move
    the entry that ignores DeprecationWarning to the front. *)
Definition pushes {A : Type} (c : Py A) : Prop :=
  forall w, filters (snd (c w)) = filters w
            \/ filters (snd (c w)) = pushed ignore_deprecation (filters w).

(** A computation leaves the warning filters with the entry that ignores
    DeprecationWarning in front and the others in their order. *)
Definition settles {A : Type} (c : Py A) : Prop :=
  forall w, filters (snd (c w)) = pushed ignore_deprecation (filters w).

(** The world [w] as it would be under the warning filters [fs]. *)
Definition under (fs : list (string * string)) (w : World) : World :=
  {| self := self w; filters := fs; stdout := stdout w; calls := calls w |}.

Definition respects {A : Type} (c : Py A) : Prop := keeps_self c /\ blind c.

End Criteria.

(** ** Concrete engines and catalogs *)

(** One addition of a sum taken in list order, with the record of whether
    an addition so far has overflowed or been invalid. *)
Definition add_step (acc : float * bool) (x : float) : float * bool :=
  (PrimFloat.add (fst acc) x,
   snd acc || np.flagged (fst acc) x (PrimFloat.add (fst acc) x)).

(** A stand-in for the external engine that is driven by tables: whether
    training succeeds and what the scorer answers depend on the state count
    and on the data; the logarithm is given as a table on the integers; a
    sum adds its numbers in list order, which for one or two numbers is the
    only sum there is. *)
Definition table_engine (fit_ok : Z -> matrix -> bool)
  (ll : Z -> matrix -> option float) (log : Z -> float) : Externals :=
  {| fitted := unit;
     em_fit := fun a X _ => if fit_ok (hmm.n_components a) X then Some tt else None;
     forward_score := fun a _ X _ => ll (hmm.n_components a) X;
     math_log_of_int := log;
     add_reduce := fun l => match l with
                            | [] => 0%float
                            | x :: l' => fold_left PrimFloat.add l' x
                            end;
     add_reduce_warns := fun l => match l with
                                  | [] => false
                                  | x :: l' => snd (fold_left add_step l' (x, false))
                                  end |}.

(** The first entry of a matrix, by which the tables tell the data apart. *)
Definition first_entry (X : matrix) : float :=
  match X with
  | (x :: _) :: _ => x
  | _ => 0%float
  end.

(** A world in which nothing has happened yet. *)
Definition fresh {E : Externals} (s : ModelSelector.t) : World :=
  {| self := s; filters := []; stdout := []; calls := [] |}.

(** [Selector(...).select()]: construct the selector, then select. *)
Definition construct_and_select {E : Externals} (k : strategy)
  (constructed : outcome ModelSelector.t) : outcome (option GaussianHMM) :=
  match constructed with
  | Return s => fst (select k (fresh s))
  | Raise e => Raise e
  end.

(** Two words with five instances of ten time steps each and two features;
    every feature of JOHN is 0 and every feature of MARY is 1. *)
Definition rows (x : float) (n : nat) : matrix := repeat [x; x] n.

Definition two_words_sequences : dict (list instance) :=
  [("JOHN"%string, repeat (rows 0 10) 5); ("MARY"%string, repeat (rows 1 10) 5)].

Definition two_words_Xlengths : dict (matrix * list nat) :=
  [("JOHN"%string, (rows 0 50, repeat 10%nat 5));
   ("MARY"%string, (rows 1 50, repeat 10%nat 5))].

(** The natural logarithm of 50 to double precision, and 0 elsewhere. *)
Definition log_table (n : Z) : float :=
  if (n =? 50)%Z then 0x1.f4bd2b7ac1bafp+1%float else 0%float.

(** Scoring table: JOHN's data scores -120, -100, -120 under 2, 3, 4 states
    and MARY's data scores -150, -150, -130. *)
Definition ll_table (n : Z) (X : matrix) : option float :=
  if PrimFloat.eqb (first_entry X) 0
  then Some (if (n =? 3)%Z then -100 else -120)%float
  else Some (if (n =? 4)%Z then -130 else -150)%float.

(** The scenario of the specification: training fails for 4 states only. *)
Definition engine_no4 : Externals :=
  table_engine (fun n _ => negb (n =? 4)%Z) ll_table log_table.

(** Training fails for 2 states only. *)
Definition engine_no2 : Externals :=
  table_engine (fun n _ => negb (n =? 2)%Z) ll_table log_table.

(** Training always succeeds. *)
Definition engine_all : Externals :=
  table_engine (fun _ _ => true) ll_table log_table.

(** Training succeeds with a single state only. *)
Definition engine_one_state : Externals :=
  table_engine (fun n _ => (n <? 2)%Z) ll_table log_table.

(** Training always succeeds and scoring always fails. *)
Definition engine_no_score : Externals :=
  table_engine (fun _ _ => true) (fun _ _ => None) log_table.

(** JOHN's selector with the given range and fallback, seed 14, quiet. *)
Definition john (n_constant min_n max_n : Z) : outcome ModelSelector.t :=
  ModelSelector_init two_words_sequences two_words_Xlengths "JOHN"
    n_constant min_n max_n 14 false.

(** The same catalog with a third word, BOOK, every feature of which is 2. *)
Definition three_words_sequences : dict (list instance) :=
  two_words_sequences ++ [("BOOK"%string, repeat (rows 2 10) 5)].

Definition three_words_Xlengths : dict (matrix * list nat) :=
  two_words_Xlengths ++ [("BOOK"%string, (rows 2 50, repeat 10%nat 5))].

(** BOOK's data scores -170 whatever the state count. *)
Definition ll_table3 (n : Z) (X : matrix) : option float :=
  if PrimFloat.eqb (first_entry X) 2 then Some (-170)%float else ll_table n X.

Definition engine_three : Externals :=
  table_engine (fun _ _ => true) ll_table3 log_table.

Definition john_of_three (n_constant min_n max_n : Z) : outcome ModelSelector.t :=
  ModelSelector_init three_words_sequences three_words_Xlengths "JOHN"
    n_constant min_n max_n 14 false.

(** A word with two instances of one time step and one feature each; the
    instances hold 0 and 1. *)
Definition pair_sequences : dict (list instance) :=
  [("PAIR"%string, [[[0%float]]; [[1%float]]])].

Definition pair_Xlengths : dict (matrix * list nat) :=
  [("PAIR"%string, ([[0%float]; [1%float]], [1%nat; 1%nat]))].

(** Test scores per fold: with 2 states, -10 on the first instance and -100
    on the second; with any other state count, -20 on both. *)
Definition fold_table (n : Z) (X : matrix) : option float :=
  if (n =? 2)%Z
  then Some (if PrimFloat.eqb (first_entry X) 0 then -10 else -100)%float
  else Some (-20)%float.

Definition engine_folds : Externals :=
  table_engine (fun _ _ => true) fold_table log_table.

Definition pair (n_constant min_n max_n : Z) (verbose : bool)
  : outcome ModelSelector.t :=
  ModelSelector_init pair_sequences pair_Xlengths "PAIR"
    n_constant min_n max_n 14 verbose.

(** A word with a single instance. *)
Definition single_sequences : dict (list instance) :=
  [("ONCE"%string, [[[0%float]; [0%float]]])].

Definition single_Xlengths : dict (matrix * list nat) :=
  [("ONCE"%string, ([[0%float]; [0%float]], [2%nat]))].

Definition once (n_constant min_n max_n : Z) : outcome ModelSelector.t :=
  ModelSelector_init single_sequences single_Xlengths "ONCE"
    n_constant min_n max_n 14 false.

(** The state count of what a call returned, [None] also when it raised. *)
Definition chosen {E : Externals} (o : outcome (option GaussianHMM)) : option Z :=
  match o with
  | Return r => state_count r
  | Raise _ => None
  end.

(** ** The calls a run is expected to make *)

Section Traces.

Context {E : Externals}.

(** The external calls one turn of the SelectorBIC loop makes for [n]
    states: the training, then the scoring when there is a model. *)
Definition BIC_calls (s : ModelSelector.t) (n : Z) : list call :=
  fit_call (hyper_for s n) (ModelSelector.X s) (ModelSelector.lengths s)
  :: match trained s n with
     | Some m => [score_call m (ModelSelector.X s) (ModelSelector.lengths s)]
     | None => []
     end.

(** The line [base_model] prints for [n] states when the selector is
    verbose. *)
Definition base_model_line (s : ModelSelector.t) (n : Z) : string :=
  match trained s n with
  | Some _ => "model created for " ++ ModelSelector.this_word s ++ " with "
              ++ str n ++ " states"
  | None => "failure on " ++ ModelSelector.this_word s ++ " with "
            ++ str n ++ " states"
  end.

(** The state count SelectorBIC retrains with. *)
Definition BIC_choice (s : ModelSelector.t) : Z :=
  match np.argmin (recorded (BIC s) (candidates s)) with
  | Some i => Z.of_nat i
  | None => ModelSelector.n_constant s
  end + 2.

(** The model SelectorCV fits in one fold for [n] states: trained on the
    fold's training instances only. *)
Definition fold_model (s : ModelSelector.t) (n : Z) (split : list nat * list nat)
  : option GaussianHMM :=
  match concat_selected (fst split) (ModelSelector.sequences s) with
  | Some (X_train, Y_train) =>
      match em_fit (hyper_for s n) X_train Y_train with
      | Some p => Some {| args := hyper_for s n;
                          n_features := shape1 X_train;
                          learnt := p |}
      | None => None
      end
  | None => None
  end.

(** The model the loop has kept, if any, was fitted in one of the word's
    folds, for one of the state counts in [cands], and that fold was
    scored. *)
Definition kept_from (s : ModelSelector.t) (cands : list Z) (r : option GaussianHMM)
  : Prop :=
  r = None
  \/ exists n split,
       In n cands /\ In split (folds_of s) /\
       r = fold_model s n split /\ r <> None /\
       fold_score s n split <> None /\
       (2 <= List.length (ModelSelector.sequences s))%nat.

(** The external calls of one fold of SelectorCV for [n] states: the two
    calls that assemble the training and the test data, the training, and
    the scoring when the training gave a model. *)
Definition CV_fold_calls (s : ModelSelector.t) (n : Z) (split : list nat * list nat)
  : list call :=
  match concat_selected (fst split) (ModelSelector.sequences s),
        concat_selected (snd split) (ModelSelector.sequences s) with
  | Some (X_train, Y_train), Some (X_test, Y_test) =>
      [combine_call (fst split); combine_call (snd split);
       fit_call (hyper_for s n) X_train Y_train]
      ++ match fold_model s n split with
         | Some m => [score_call m X_test Y_test]
         | None => []
         end
  | _, _ => []
  end.

(** The external calls of SelectorCV for one candidate: none for a word
    with at most one instance, otherwise a new splitter, its split, and the
    calls of every fold. *)
Definition CV_calls (s : ModelSelector.t) (n : Z) : list call :=
  let n_samples := List.length (ModelSelector.sequences s) in
  if (n_samples <=? 1)%nat then []
  else KFold_call (Nat.min 3 n_samples) :: split_call n_samples
       :: flat_map (CV_fold_calls s n) (folds_of s).

(** A computation prints nothing, and leaves the selector object alone,
    when the selector is not verbose. *)
Definition silent {A : Type} (c : Py A) : Prop :=
  forall w, ModelSelector.verbose (self w) = false ->
            stdout (snd (c w)) = stdout w /\ self (snd (c w)) = self w.

End Traces.

(** A selector that holds JOHN's matrix and lengths but no catalog, no
    instance list and another name. *)
Definition bare_john : ModelSelector.t :=
  {| ModelSelector.words := [];
     ModelSelector.hwords := [];
     ModelSelector.sequences := [];
     ModelSelector.X := rows 0 50;
     ModelSelector.lengths := repeat 10%nat 5;
     ModelSelector.this_word := "NOBODY";
     ModelSelector.n_constant := 3;
     ModelSelector.min_n_components := 2;
     ModelSelector.max_n_components := 4;
     ModelSelector.random_state := 14;
     ModelSelector.verbose := true |}.


(** ** Laws of the monad *)

Section Laws.

Context {E : Externals}.

Lemma respects_ret {A : Type} (a : A) : respects (ret a).
Proof.
  split; [ intros w; reflexivity | ].
  intros w1 w2 [_ Hf]. split; [ reflexivity | exact Hf ].
Qed.

Lemma respects_raise {A : Type} (e : exn) : respects (@raise _ A e).
Proof.
  split; [ intros w; reflexivity | ].
  intros w1 w2 [_ Hf]. split; [ reflexivity | exact Hf ].
Qed.

Lemma respects_bind {A B : Type} (c : Py A) (k : A -> Py B) :
  respects c -> (forall a, respects (k a)) -> respects (bind c k).
Proof.
  intros [Fc Bc] Hk. split.
  - intros w. unfold bind. specialize (Fc w).
    destruct (c w) as [[a | e] w']; simpl in *.
    + destruct (Hk a) as [Fk _]. rewrite Fk. exact Fc.
    + exact Fc.
  - intros w1 w2 H. unfold bind.
    destruct (Bc w1 w2 H) as [Hres Hfil].
    pose proof (Fc w1) as F1. pose proof (Fc w2) as F2.
    destruct (c w1) as [o1 w1'], (c w2) as [o2 w2']; simpl in *.
    subst o2. destruct o1 as [a | e]; [ | split; [ reflexivity | exact Hfil ] ].
    destruct (Hk a) as [_ Bk]. apply Bk. split; [ | exact Hfil ].
    rewrite F1, F2. exact (proj1 H).
Qed.

Lemma respects_try {A : Type} (c h : Py A) :
  respects c -> respects h -> respects (try_except c h).
Proof.
  intros [Fc Bc] [Fh Bh]. split.
  - intros w. unfold try_except. specialize (Fc w).
    destruct (c w) as [[a | e] w']; simpl in *; [ exact Fc | ].
    rewrite Fh. exact Fc.
  - intros w1 w2 H. unfold try_except.
    destruct (Bc w1 w2 H) as [Hres Hfil].
    pose proof (Fc w1) as F1. pose proof (Fc w2) as F2.
    destruct (c w1) as [o1 w1'], (c w2) as [o2 w2']; simpl in *.
    subst o2. destruct o1 as [a | e]; [ split; [ reflexivity | exact Hfil ] | ].
    apply Bh. split; [ | exact Hfil ].
    rewrite F1, F2. exact (proj1 H).
Qed.

Lemma respects_for_each {A S : Type} (l : list A) (body : A -> S -> Py S) :
  (forall a s, respects (body a s)) -> forall s, respects (for_each l body s).
Proof.
  intros Hbody. induction l as [ | a l IH]; intros s; simpl.
  - apply respects_ret.
  - apply respects_bind; [ apply Hbody | exact IH ].
Qed.

Lemma respects_attr {A : Type} (f : ModelSelector.t -> A) :
  (forall s1 s2, same_inputs s1 s2 -> f s1 = f s2) -> respects (attr f).
Proof.
  intros Hf. split.
  - intros w. reflexivity.
  - intros w1 w2 [H Hfil]. unfold attr. simpl.
    split; [ f_equal; apply Hf, H | exact Hfil ].
Qed.

Lemma respects_record (c : call) : respects (record c).
Proof.
  split; [ intros w; reflexivity | ].
  intros w1 w2 [_ Hf]. split; [ reflexivity | exact Hf ].
Qed.

Lemma respects_print (s : string) : respects (print s).
Proof.
  split; [ intros w; reflexivity | ].
  intros w1 w2 [_ Hf]. split; [ reflexivity | exact Hf ].
Qed.

Lemma filter_eqb_refl (item : string * string) : filter_eqb item item = true.
Proof. unfold filter_eqb. rewrite !String.eqb_refl. reflexivity. Qed.

Lemma filter_eqb_eq (a b : string * string) : filter_eqb a b = true -> a = b.
Proof.
  destruct a as [a1 a2], b as [b1 b2]. unfold filter_eqb. cbn [fst snd].
  intros H. apply andb_true_iff in H. destruct H as [H1 H2].
  apply String.eqb_eq in H1, H2. congruence.
Qed.

(** Taking out an entry that does not apply to RuntimeWarning changes
    nothing for RuntimeWarning. *)
Lemma raises_remove_first (item : string * string) (fs : list (string * string)) :
  matches_RuntimeWarning (snd item) = false ->
  raises_RuntimeWarning (remove_first item fs) = raises_RuntimeWarning fs.
Proof.
  intros Hm. induction fs as [ | [action category] fs IH]; [ reflexivity | ].
  cbn [remove_first].
  destruct (filter_eqb (action, category) item) eqn:Heq.
  - apply filter_eqb_eq in Heq. subst item. cbn [snd] in Hm.
    cbn [raises_RuntimeWarning]. rewrite Hm. reflexivity.
  - cbn [raises_RuntimeWarning]. rewrite IH. reflexivity.
Qed.

(** What a moved entry does to RuntimeWarning: it decides when it applies,
    and changes nothing when it does not. *)
Lemma raises_pushed (item : string * string) (fs : list (string * string)) :
  raises_RuntimeWarning (pushed item fs)
  = if matches_RuntimeWarning (snd item)
    then String.eqb (fst item) "error"
    else raises_RuntimeWarning fs.
Proof.
  destruct item as [action category]. unfold pushed.
  cbn [raises_RuntimeWarning fst snd].
  destruct (matches_RuntimeWarning category) eqn:Hm; [ reflexivity | ].
  apply raises_remove_first. exact Hm.
Qed.

Lemma pushed_pushed (item : string * string) (fs : list (string * string)) :
  pushed item (pushed item fs) = pushed item fs.
Proof. unfold pushed. cbn [remove_first]. rewrite filter_eqb_refl. reflexivity. Qed.

Lemma respects_filterwarnings (action category : string) :
  respects (filterwarnings action category).
Proof.
  split; [ intros w; reflexivity | ].
  intros w1 w2 [_ Hf]. split; [ reflexivity | ].
  unfold filterwarnings. cbn [snd filters].
  change (raises_RuntimeWarning (pushed (action, category) (filters w1))
          = raises_RuntimeWarning (pushed (action, category) (filters w2))).
  rewrite !raises_pushed, Hf. reflexivity.
Qed.

Lemma respects_warn_RuntimeWarning : respects warn_RuntimeWarning.
Proof.
  split.
  - intros w. unfold warn_RuntimeWarning.
    destruct (raises_RuntimeWarning (filters w)); reflexivity.
  - intros w1 w2 [_ Hf]. unfold warn_RuntimeWarning. rewrite Hf.
    destruct (raises_RuntimeWarning (filters w2)) eqn:H2; cbn [fst snd];
      (split; [ reflexivity | congruence ]).
Qed.

Lemma respects_local {A : Type} (v : option A) : respects (local v).
Proof. destruct v; [ apply respects_ret | apply respects_raise ]. Qed.

End Laws.

Create HintDb py.

#[export] Hint Resolve respects_ret respects_raise respects_record respects_print
  respects_filterwarnings respects_warn_RuntimeWarning respects_local : py.

(** Walks through a computation built from [bind], [try_except] and the
    primitives, leaving the goals the hint database cannot close. *)
Ltac respects_step :=
  match goal with
  | |- respects (bind _ _) => apply respects_bind; [ | intros ? ]
  | |- respects (try_except _ _) => apply respects_try
  | |- respects (for_each _ _ _) => apply respects_for_each; intros ? ?
  | |- respects (attr _) =>
      apply respects_attr; intros ? ? H; unfold same_inputs in H; tauto
  | |- respects (match ?x with _ => _ end) => destruct x
  | |- respects (if ?b then _ else _) => destruct b
  | |- respects _ => solve [ auto with py ]
  end.

(** Runs the monadic plumbing of a goal as far as the next call whose
    outcome is not known yet. *)
Ltac py_run :=
  cbv beta iota zeta delta
    [bind try_except attr ret raise record local combine_sequences
     GaussianHMM_fit score hyper_for];
  cbn [fst snd self filters stdout calls args learnt n_features
       best_score best_model _model].

(** ** The selectors only read the selector object *)

Section Respect.

Context {E : Externals}.

Lemma respects_GaussianHMM_fit (a : hmm.hyper) (X : matrix) (lengths : list nat) :
  respects (GaussianHMM_fit a X lengths).
Proof. unfold GaussianHMM_fit. repeat respects_step. Qed.

Lemma respects_score (model : option GaussianHMM) (X : matrix) (lengths : list nat) :
  respects (score model X lengths).
Proof. unfold score. repeat respects_step. Qed.

Lemma respects_get_n_features (model : option GaussianHMM) :
  respects (get_n_features model).
Proof. unfold get_n_features. repeat respects_step. Qed.

Lemma respects_math_log (n : nat) : respects (math_log n).
Proof. unfold math_log. repeat respects_step. Qed.

Lemma respects_np_argmin (l : list float) : respects (np_argmin l).
Proof. unfold np_argmin. repeat respects_step. Qed.

Lemma respects_np_argmax (l : list float) : respects (np_argmax l).
Proof. unfold np_argmax. repeat respects_step. Qed.

Lemma respects_KFold (n_splits : nat) : respects (KFold n_splits).
Proof. unfold KFold. repeat respects_step. Qed.

Lemma respects_KFold_split (n_splits : nat) (sequences : list instance) :
  respects (KFold_split n_splits sequences).
Proof. unfold KFold_split. repeat respects_step. Qed.

Lemma respects_combine_sequences (idx : list nat) (sequences : list instance) :
  respects (combine_sequences idx sequences).
Proof. unfold combine_sequences. repeat respects_step. Qed.

(** What [base_model] does: one call to the trainer, whose failure becomes
    the [None] result; the verbosity flag only decides what is printed. *)
Lemma base_model_result (n : Z) (w : World) :
  fst (base_model n w) = Return (trained (self w) n).
Proof.
  unfold base_model, trained, bind, try_except, filterwarnings, attr,
    GaussianHMM_fit, record, print, ret, raise, hyper_for.
  simpl.
  destruct (em_fit _ _ _); simpl;
    destruct (ModelSelector.verbose (self w)); reflexivity.
Qed.

Lemma base_model_self (n : Z) (w : World) :
  self (snd (base_model n w)) = self w.
Proof.
  unfold base_model, bind, try_except, filterwarnings, attr,
    GaussianHMM_fit, record, print, ret, raise.
  simpl.
  destruct (em_fit _ _ _); simpl;
    destruct (ModelSelector.verbose (self w)); reflexivity.
Qed.

Lemma base_model_calls (n : Z) (w : World) :
  calls (snd (base_model n w))
  = calls w ++ [fit_call (hyper_for (self w) n)
                         (ModelSelector.X (self w)) (ModelSelector.lengths (self w))].
Proof.
  unfold base_model, bind, try_except, filterwarnings, attr,
    GaussianHMM_fit, record, print, ret, raise, hyper_for.
  simpl.
  destruct (em_fit _ _ _); simpl;
    destruct (ModelSelector.verbose (self w)); reflexivity.
Qed.

Lemma trained_same_inputs (s1 s2 : ModelSelector.t) (n : Z) :
  same_inputs s1 s2 -> trained s1 n = trained s2 n.
Proof.
  intros (_ & _ & _ & HX & Hl & _ & _ & _ & _ & Hr).
  unfold trained, hyper_for. rewrite HX, Hl, Hr. reflexivity.
Qed.

(** [base_model] moves its filter entry to the front and touches no
    other. *)
Lemma base_model_filters (n : Z) (w : World) :
  filters (snd (base_model n w)) = pushed ignore_deprecation (filters w).
Proof.
  unfold base_model, bind, try_except, filterwarnings, attr,
    GaussianHMM_fit, record, print, ret, raise.
  simpl.
  destruct (em_fit _ _ _); simpl;
    destruct (ModelSelector.verbose (self w)); reflexivity.
Qed.

Lemma base_model_raises (n : Z) (w : World) :
  raises_RuntimeWarning (filters (snd (base_model n w)))
  = raises_RuntimeWarning (filters w).
Proof. rewrite base_model_filters, raises_pushed. reflexivity. Qed.

Lemma respects_base_model (n : Z) : respects (base_model n).
Proof.
  split.
  - intros w. apply base_model_self.
  - intros w1 w2 [H Hf]. rewrite !base_model_result, !base_model_raises.
    split; [ | exact Hf ].
    f_equal. apply trained_same_inputs, H.
Qed.

Lemma respects_float_of_int (z : Z) : respects (float_of_int z).
Proof. unfold float_of_int. repeat respects_step. Qed.

Lemma respects_np_mean (l : list float) : respects (np_mean l).
Proof. unfold np_mean. repeat respects_step. Qed.

Lemma respects_np_sub (x y : float) : respects (np_sub x y).
Proof. unfold np_sub. repeat respects_step. Qed.

Hint Resolve respects_GaussianHMM_fit respects_score respects_get_n_features
  respects_math_log respects_np_argmin respects_np_argmax respects_KFold
  respects_KFold_split respects_combine_sequences respects_base_model
  respects_float_of_int respects_np_mean respects_np_sub : py.

Lemma respects_SelectorBIC_body (states : Z) (bic_scores : list float) :
  respects (SelectorBIC_body states bic_scores).
Proof. unfold SelectorBIC_body. repeat respects_step. Qed.

Lemma respects_SelectorDIC_other (model : option GaussianHMM)
  (item : string * (matrix * list nat)) (acc : list float) :
  respects (SelectorDIC_other model item acc).
Proof.
  destruct item as [word [X lengths]]. unfold SelectorDIC_other.
  repeat respects_step.
Qed.

Hint Resolve respects_SelectorBIC_body respects_SelectorDIC_other : py.

Lemma respects_SelectorDIC_body (states : Z) (dic_scores : list float) :
  respects (SelectorDIC_body states dic_scores).
Proof. unfold SelectorDIC_body. repeat respects_step. Qed.

Lemma respects_SelectorCV_fold (n : Z) (split : list nat * list nat) (loc : cv_locals) :
  respects (SelectorCV_fold n split loc).
Proof.
  destruct split as [train_x test_x]. unfold SelectorCV_fold.
  repeat respects_step.
Qed.

Hint Resolve respects_SelectorDIC_body respects_SelectorCV_fold : py.

Lemma respects_SelectorCV_body (n : Z) (loc : cv_locals) :
  respects (SelectorCV_body n loc).
Proof. unfold SelectorCV_body. repeat respects_step. Qed.

Hint Resolve respects_SelectorCV_body : py.

Lemma respects_select (k : strategy) : respects (select k).
Proof.
  destruct k; simpl;
    unfold SelectorConstant_select, SelectorBIC_select, SelectorDIC_select,
      SelectorCV_select;
    repeat respects_step.
Qed.

End Respect.

(** ** What the selectors do to the warning filters *)

Section Filters.

Context {E : Externals}.

Lemma keeps_filters_ret {A : Type} (a : A) : keeps_filters (ret a).
Proof. intros w. reflexivity. Qed.

Lemma keeps_filters_raise {A : Type} (e : exn) : keeps_filters (@raise _ A e).
Proof. intros w. reflexivity. Qed.

Lemma keeps_filters_bind {A B : Type} (c : Py A) (k : A -> Py B) :
  keeps_filters c -> (forall a, keeps_filters (k a)) -> keeps_filters (bind c k).
Proof.
  intros Hc Hk w. unfold bind. specialize (Hc w).
  destruct (c w) as [[a | e] w1]; cbn [snd] in *; [ | exact Hc ].
  rewrite Hk. exact Hc.
Qed.

Lemma keeps_filters_try {A : Type} (c h : Py A) :
  keeps_filters c -> keeps_filters h -> keeps_filters (try_except c h).
Proof.
  intros Hc Hh w. unfold try_except. specialize (Hc w).
  destruct (c w) as [[a | e] w1]; cbn [snd] in *; [ exact Hc | ].
  rewrite Hh. exact Hc.
Qed.

Lemma keeps_filters_for_each {A S : Type} (l : list A) (body : A -> S -> Py S) :
  (forall a s, keeps_filters (body a s)) ->
  forall s, keeps_filters (for_each l body s).
Proof.
  intros Hbody. induction l as [ | a l IH]; intros s; cbn [for_each].
  - apply keeps_filters_ret.
  - apply keeps_filters_bind; [ apply Hbody | exact IH ].
Qed.

Lemma keeps_filters_attr {A : Type} (f : ModelSelector.t -> A) :
  keeps_filters (attr f).
Proof. intros w. reflexivity. Qed.

Lemma keeps_filters_record (c : call) : keeps_filters (record c).
Proof. intros w. reflexivity. Qed.

Lemma keeps_filters_warn : keeps_filters warn_RuntimeWarning.
Proof.
  intros w. unfold warn_RuntimeWarning.
  destruct (raises_RuntimeWarning (filters w)); reflexivity.
Qed.

Ltac keeps_step :=
  match goal with
  | |- keeps_filters (bind _ _) => apply keeps_filters_bind; [ | intros ? ]
  | |- keeps_filters (try_except _ _) => apply keeps_filters_try
  | |- keeps_filters (for_each _ _ _) => apply keeps_filters_for_each; intros ? ?
  | |- keeps_filters (ret _) => apply keeps_filters_ret
  | |- keeps_filters (raise _) => apply keeps_filters_raise
  | |- keeps_filters (attr _) => apply keeps_filters_attr
  | |- keeps_filters (record _) => apply keeps_filters_record
  | |- keeps_filters warn_RuntimeWarning => apply keeps_filters_warn
  | |- keeps_filters (match ?x with _ => _ end) => destruct x
  | |- keeps_filters (if ?b then _ else _) => destruct b
  end.

Lemma keeps_filters_score (model : option GaussianHMM) (X : matrix)
  (lengths : list nat) : keeps_filters (score model X lengths).
Proof. unfold score. repeat keeps_step. Qed.

Lemma keeps_filters_np_mean (l : list float) : keeps_filters (np_mean l).
Proof. unfold np_mean. repeat keeps_step. Qed.

Lemma keeps_filters_np_sub (x y : float) : keeps_filters (np_sub x y).
Proof. unfold np_sub. repeat keeps_step. Qed.

Lemma keeps_filters_SelectorDIC_other (model : option GaussianHMM)
  (item : string * (matrix * list nat)) (acc : list float) :
  keeps_filters (SelectorDIC_other model item acc).
Proof.
  destruct item as [word [X lengths]]. unfold SelectorDIC_other, score.
  repeat keeps_step.
Qed.

Lemma keeps_filters_SelectorCV_fold (n : Z) (split : list nat * list nat)
  (loc : cv_locals) : keeps_filters (SelectorCV_fold n split loc).
Proof.
  destruct split as [train_x test_x].
  unfold SelectorCV_fold, combine_sequences, GaussianHMM_fit, score, local.
  repeat keeps_step.
Qed.

Lemma keeps_filters_SelectorCV_body (n : Z) (loc : cv_locals) :
  keeps_filters (SelectorCV_body n loc).
Proof.
  unfold SelectorCV_body, KFold, KFold_split.
  repeat first [ apply keeps_filters_SelectorCV_fold | keeps_step ].
Qed.

(** The loop of SelectorCV leaves the warning filters alone: the entry put
    in front before the loop is still in front at every [np.mean]. *)
Lemma SelectorCV_loop_filters (l : list Z) (loc : cv_locals) (w : World) :
  filters (snd (for_each l SelectorCV_body loc w)) = filters w.
Proof.
  apply keeps_filters_for_each. intros n s. apply keeps_filters_SelectorCV_body.
Qed.

(** Under the filter that ignores every warning, [np.mean] is its value. *)
Lemma np_mean_ignored (l : list float) (w : World) (fs : list (string * string)) :
  filters w = ignore_all :: fs ->
  np_mean l w = (Return (np.mean l), w).
Proof.
  intros Hf. unfold np_mean, warn_RuntimeWarning, bind, ret.
  destruct (np.mean_warns l); [ | reflexivity ].
  rewrite Hf. reflexivity.
Qed.

Lemma pushes_keeps {A : Type} (c : Py A) : keeps_filters c -> pushes c.
Proof. intros Hc w. left. apply Hc. Qed.

Lemma pushes_bind {A B : Type} (c : Py A) (k : A -> Py B) :
  pushes c -> (forall a, pushes (k a)) -> pushes (bind c k).
Proof.
  intros Hc Hk w. unfold bind. specialize (Hc w).
  destruct (c w) as [[a | e] w1]; cbn [snd] in *; [ | exact Hc ].
  destruct (Hk a w1) as [H1 | H1], Hc as [H0 | H0]; rewrite H1, H0.
  - left. reflexivity.
  - right. reflexivity.
  - right. reflexivity.
  - right. apply pushed_pushed.
Qed.

Lemma pushes_try {A : Type} (c h : Py A) :
  pushes c -> pushes h -> pushes (try_except c h).
Proof.
  intros Hc Hh w. unfold try_except. specialize (Hc w).
  destruct (c w) as [[a | e] w1]; cbn [snd] in *; [ exact Hc | ].
  destruct (Hh w1) as [H1 | H1], Hc as [H0 | H0]; rewrite H1, H0.
  - left. reflexivity.
  - right. reflexivity.
  - right. reflexivity.
  - right. apply pushed_pushed.
Qed.

Lemma pushes_for_each {A S : Type} (l : list A) (body : A -> S -> Py S) :
  (forall a s, pushes (body a s)) -> forall s, pushes (for_each l body s).
Proof.
  intros Hbody. induction l as [ | a l IH]; intros s; cbn [for_each].
  - apply pushes_keeps, keeps_filters_ret.
  - apply pushes_bind; [ apply Hbody | exact IH ].
Qed.

Lemma pushes_base_model (n : Z) : pushes (base_model n).
Proof. intros w. right. apply base_model_filters. Qed.

Lemma keeps_filters_SelectorBIC_rest (states : Z) (bic_scores : list float)
  (model_bic : option GaussianHMM) :
  keeps_filters
    (X <- attr ModelSelector.X ;;
     lengths <- attr ModelSelector.lengths ;;
     log_likelihood <- score model_bic X lengths ;;
     d <- get_n_features model_bic ;;
     let p := (states ^ 2 + 2 * states * d - 1)%Z in
     X <- attr ModelSelector.X ;;
     logN <- math_log (shape0 X) ;;
     p' <- float_of_int p ;;
     let BIC := (np.float_of_Z (-2) * log_likelihood + p' * logN)%float in
     ret (bic_scores ++ [BIC])).
Proof.
  unfold get_n_features, math_log, float_of_int. cbv zeta.
  repeat first [ apply keeps_filters_score | keeps_step ].
Qed.

Lemma pushes_SelectorBIC_body (n : Z) (bic_scores : list float) :
  pushes (SelectorBIC_body n bic_scores).
Proof.
  unfold SelectorBIC_body. apply pushes_try.
  - apply pushes_bind; [ apply pushes_base_model | intros model_bic ].
    apply pushes_keeps, keeps_filters_SelectorBIC_rest.
  - apply pushes_keeps, keeps_filters_ret.
Qed.

Lemma keeps_filters_SelectorDIC_rest (dic_scores : list float)
  (model : option GaussianHMM) :
  keeps_filters
    (hwords <- attr ModelSelector.hwords ;;
     other_words_scores <- for_each hwords (SelectorDIC_other model) [] ;;
     X <- attr ModelSelector.X ;;
     lengths <- attr ModelSelector.lengths ;;
     l_self <- score model X lengths ;;
     l_others <- np_mean other_words_scores ;;
     DIC <- np_sub l_self l_others ;;
     ret (dic_scores ++ [DIC])).
Proof.
  repeat first [ apply keeps_filters_score | apply keeps_filters_np_mean
               | apply keeps_filters_np_sub
               | apply keeps_filters_SelectorDIC_other | keeps_step ].
Qed.

Lemma pushes_SelectorDIC_body (n : Z) (dic_scores : list float) :
  pushes (SelectorDIC_body n dic_scores).
Proof.
  unfold SelectorDIC_body. apply pushes_try.
  - apply pushes_bind; [ apply pushes_base_model | intros model ].
    apply pushes_keeps, keeps_filters_SelectorDIC_rest.
  - apply pushes_keeps, keeps_filters_ret.
Qed.

Lemma keeps_filters_np_argmin (l : list float) : keeps_filters (np_argmin l).
Proof. unfold np_argmin. repeat keeps_step. Qed.

Lemma keeps_filters_np_argmax (l : list float) : keeps_filters (np_argmax l).
Proof. unfold np_argmax. repeat keeps_step. Qed.

Lemma settles_bind {A B : Type} (c : Py A) (k : A -> Py B) :
  settles c -> (forall a, pushes (k a)) -> settles (bind c k).
Proof.
  intros Hc Hk w. unfold bind. specialize (Hc w).
  destruct (c w) as [[a | e] w1]; cbn [snd] in *; [ | exact Hc ].
  destruct (Hk a w1) as [H1 | H1]; rewrite H1, Hc; [ reflexivity | ].
  apply pushed_pushed.
Qed.

Lemma settles_filterwarnings :
  settles (filterwarnings "ignore" "DeprecationWarning").
Proof. intros w. reflexivity. Qed.

(** Everything SelectorBIC does after its first line. *)
Lemma pushes_SelectorBIC_rest :
  pushes
    (min_n <- attr ModelSelector.min_n_components ;;
     max_n <- attr ModelSelector.max_n_components ;;
     bic_scores <- for_each (range min_n (max_n + 1)) SelectorBIC_body [] ;;
     best_state <- match bic_scores with
                   | [] => attr ModelSelector.n_constant
                   | _ :: _ => np_argmin bic_scores
                   end ;;
     base_model (best_state + 2)).
Proof.
  apply pushes_bind; [ apply pushes_keeps, keeps_filters_attr | intros min_n ].
  apply pushes_bind; [ apply pushes_keeps, keeps_filters_attr | intros max_n ].
  apply pushes_bind;
    [ apply pushes_for_each; intros n acc; apply pushes_SelectorBIC_body
    | intros bic_scores ].
  apply pushes_bind; [ | intros best_state; apply pushes_base_model ].
  apply pushes_keeps.
  destruct bic_scores; [ apply keeps_filters_attr | apply keeps_filters_np_argmin ].
Qed.

Lemma pushes_SelectorDIC_rest :
  pushes
    (min_n <- attr ModelSelector.min_n_components ;;
     max_n <- attr ModelSelector.max_n_components ;;
     dic_scores <- for_each (range min_n (max_n + 1)) SelectorDIC_body [] ;;
     best_state <- match dic_scores with
                   | [] => attr ModelSelector.n_constant
                   | _ :: _ => np_argmax dic_scores
                   end ;;
     base_model (best_state + 2)).
Proof.
  apply pushes_bind; [ apply pushes_keeps, keeps_filters_attr | intros min_n ].
  apply pushes_bind; [ apply pushes_keeps, keeps_filters_attr | intros max_n ].
  apply pushes_bind;
    [ apply pushes_for_each; intros n acc; apply pushes_SelectorDIC_body
    | intros dic_scores ].
  apply pushes_bind; [ | intros best_state; apply pushes_base_model ].
  apply pushes_keeps.
  destruct dic_scores; [ apply keeps_filters_attr | apply keeps_filters_np_argmax ].
Qed.

(** SelectorConstant, SelectorBIC and SelectorDIC leave the warning filters
    with the entry that ignores DeprecationWarning in front. *)
Lemma settles_SelectorConstant_select : settles SelectorConstant_select.
Proof.
  intros w. unfold SelectorConstant_select, bind, attr. cbn [fst snd].
  apply base_model_filters.
Qed.

Lemma settles_SelectorBIC_select : settles SelectorBIC_select.
Proof.
  unfold SelectorBIC_select. apply settles_bind.
  - apply settles_filterwarnings.
  - intros _. apply pushes_SelectorBIC_rest.
Qed.

Lemma settles_SelectorDIC_select : settles SelectorDIC_select.
Proof.
  unfold SelectorDIC_select. apply settles_bind.
  - apply settles_filterwarnings.
  - intros _. apply pushes_SelectorDIC_rest.
Qed.

(** Moving the entry that ignores DeprecationWarning never changes what
    happens to a RuntimeWarning. *)
Lemma pushes_raises {A : Type} (c : Py A) (w : World) :
  pushes c ->
  raises_RuntimeWarning (filters (snd (c w))) = raises_RuntimeWarning (filters w).
Proof.
  intros Hc. destruct (Hc w) as [H | H]; rewrite H; [ reflexivity | ].
  rewrite raises_pushed. reflexivity.
Qed.

End Filters.

(** ** The scores SelectorBIC and SelectorDIC record *)

Section Scores.

Context {E : Externals}.

Lemma recorded_cons (score_of : Z -> option float) (n : Z) (l : list Z) :
  recorded score_of (n :: l) = score_list (score_of n) ++ recorded score_of l.
Proof. reflexivity. Qed.

Lemma trained_n_features (s : ModelSelector.t) (n : Z) (m : GaussianHMM) :
  trained s n = Some m -> n_features m = shape1 (ModelSelector.X s).
Proof.
  unfold trained. destruct (em_fit _ _ _); intros H; [ | discriminate ].
  injection H as <-. reflexivity.
Qed.


(** One turn of the BIC loop appends BIC(n) when the candidate trains and
    scores, and nothing otherwise. *)
Lemma SelectorBIC_body_result (states : Z) (bic_scores : list float) (w : World) :
  fst (SelectorBIC_body states bic_scores w)
  = Return (bic_scores ++ score_list (BIC (self w) states)).
Proof.
  unfold SelectorBIC_body, try_except, bind.
  pose proof (base_model_result states w) as Hr.
  pose proof (base_model_self states w) as Hs.
  destruct (base_model states w) as [o w']. simpl in Hr, Hs. subst o.
  unfold BIC, loglik. rewrite <- Hs.
  destruct (trained (self w') states) as [m | ] eqn:Ht; simpl.
  - apply trained_n_features in Ht.
    unfold bind, record, attr, ret, raise. simpl.
    destruct (forward_score _ _ _ _) as [L | ]; simpl.
    + unfold math_log, float_of_int, shape0.
      destruct (List.length (ModelSelector.X (self w'))) eqn:HN; cbn [fst].
      * rewrite app_nil_r. reflexivity.
      * rewrite Ht. unfold raise, ret.
        destruct (is_infinity _); cbn [fst score_list];
          [ rewrite app_nil_r | ]; reflexivity.
    + rewrite app_nil_r. reflexivity.
  - rewrite app_nil_r. reflexivity.
Qed.

Lemma SelectorBIC_loop (l : list Z) (bic_scores : list float) (w : World) :
  fst (for_each l SelectorBIC_body bic_scores w)
  = Return (bic_scores ++ recorded (BIC (self w)) l).
Proof.
  revert bic_scores w. induction l as [ | n l IH]; intros bic_scores w;
    cbn [for_each].
  - simpl. rewrite app_nil_r. reflexivity.
  - unfold bind.
    pose proof (SelectorBIC_body_result n bic_scores w) as Hr.
    pose proof (proj1 (respects_SelectorBIC_body n bic_scores) w) as Hs.
    destruct (SelectorBIC_body n bic_scores w) as [o w']. simpl in Hr, Hs. subst o.
    rewrite IH, Hs, recorded_cons, app_assoc. reflexivity.
Qed.

Lemma score_run (m : GaussianHMM) (X : matrix) (lengths : list nat) (w : World) :
  score (Some m) X lengths w
  = match loglik m X lengths with
    | Some l => (Return l, snd (record (score_call m X lengths) w))
    | None => (Raise ScoreError, snd (record (score_call m X lengths) w))
    end.
Proof.
  unfold loglik, score, bind, record, ret, raise. simpl.
  destruct (forward_score _ _ _ _); reflexivity.
Qed.

Lemma SelectorDIC_other_run (m : GaussianHMM) (word : string) (X : matrix)
  (lengths : list nat) (acc : list float) (w : World) :
  SelectorDIC_other (Some m) (word, (X, lengths)) acc w
  = if negb (String.eqb word (ModelSelector.this_word (self w)))
    then match loglik m X lengths with
         | Some l => (Return (acc ++ [l]), snd (record (score_call m X lengths) w))
         | None => (Raise ScoreError, snd (record (score_call m X lengths) w))
         end
    else (Return acc, w).
Proof.
  unfold SelectorDIC_other, loglik, score, bind, attr, record, ret, raise. simpl.
  destruct (negb _); [ | reflexivity ].
  destruct (forward_score _ _ _ _); reflexivity.
Qed.

(** The inner loop of SelectorDIC scores the other words in catalog
    order and stops at the first one the scorer rejects. *)
Lemma SelectorDIC_others_result (m : GaussianHMM) (items : dict (matrix * list nat))
  (acc : list float) (w : World) :
  fst (for_each items (SelectorDIC_other (Some m)) acc w)
  = match logliks m (filter (fun item => negb (String.eqb (fst item)
                                   (ModelSelector.this_word (self w)))) items) with
    | Some ls => Return (acc ++ ls)
    | None => Raise ScoreError
    end.
Proof.
  revert acc w. induction items as [ | [word [X lengths]] items IH]; intros acc w;
    cbn [for_each filter fst].
  - simpl. rewrite app_nil_r. reflexivity.
  - unfold bind at 1. rewrite SelectorDIC_other_run.
    destruct (negb (String.eqb word (ModelSelector.this_word (self w)))).
    + cbn [logliks].
      destruct (loglik m X lengths) as [l | ]; [ | reflexivity ].
      rewrite IH. simpl.
      destruct (logliks m _) as [ls | ]; [ | reflexivity ].
      rewrite <- app_assoc. reflexivity.
    + apply IH.
Qed.

(** As many scores as entries. *)
Lemma logliks_length (m : GaussianHMM) (items : dict (matrix * list nat))
  (ls : list float) :
  logliks m items = Some ls -> List.length ls = List.length items.
Proof.
  revert ls. induction items as [ | [word [X lengths]] items IH]; intros ls;
    cbn [logliks].
  - intros H. injection H as <-. reflexivity.
  - destruct (loglik m X lengths); [ | discriminate ].
    destruct (logliks m items) as [ls' | ]; [ | discriminate ].
    intros H. injection H as <-. cbn [List.length]. f_equal. apply IH. reflexivity.
Qed.

(** What [np.mean] and the subtraction do under the warning filters. *)
Lemma np_mean_run (l : list float) (w : World) :
  np_mean l w
  = if np.mean_warns l && raises_RuntimeWarning (filters w)
    then (Raise RuntimeWarning, w)
    else (Return (np.mean l), w).
Proof.
  unfold np_mean, warn_RuntimeWarning, bind, ret.
  destruct (np.mean_warns l); [ | reflexivity ].
  destruct (raises_RuntimeWarning (filters w)); reflexivity.
Qed.

Lemma np_sub_run (x y : float) (w : World) :
  np_sub x y w
  = if np.sub_warns x y && raises_RuntimeWarning (filters w)
    then (Raise RuntimeWarning, w)
    else (Return (x - y)%float, w).
Proof.
  unfold np_sub, warn_RuntimeWarning, bind, ret.
  destruct (np.sub_warns x y); [ | reflexivity ].
  destruct (raises_RuntimeWarning (filters w)); reflexivity.
Qed.

(** Under filters that let a RuntimeWarning pass, what is recorded is the
    DIC itself. *)
Lemma DIC_at_false (s : ModelSelector.t) (n : Z) : DIC_at false s n = DIC s n.
Proof. reflexivity. Qed.

(** With no other word and a RuntimeWarning turned into an exception,
    nothing is recorded. *)
Lemma DIC_at_alone (s : ModelSelector.t) (n : Z) :
  other_words s = [] -> DIC_at true s n = None.
Proof.
  intros Ho. unfold DIC_at. rewrite Ho. cbn [logliks].
  destruct (trained s n); [ | reflexivity ].
  destruct (loglik _ _ _); reflexivity.
Qed.

(** One turn of the DIC loop appends DIC(n) when the candidate trains and
    every score it needs succeeds, and nothing otherwise; when the mean of
    the other words' scores or the subtraction warns and a RuntimeWarning
    is turned into an exception, it appends nothing. *)
Lemma SelectorDIC_body_result (states : Z) (dic_scores : list float) (w : World) :
  fst (SelectorDIC_body states dic_scores w)
  = Return (dic_scores
            ++ score_list (DIC_at (raises_RuntimeWarning (filters w)) (self w) states)).
Proof.
  unfold SelectorDIC_body, try_except. unfold bind at 1.
  pose proof (base_model_result states w) as Hr.
  pose proof (base_model_self states w) as Hs.
  pose proof (base_model_raises states w) as Hf.
  destruct (base_model states w) as [o w']. cbn [fst snd] in Hr, Hs, Hf. subst o.
  rewrite <- Hf, <- Hs. clear Hf Hs w.
  unfold bind at 1. unfold attr at 1. unfold bind at 1.
  unfold DIC_at.
  destruct (trained (self w') states) as [m | ] eqn:Ht; cbn [fst snd].
  - pose proof (SelectorDIC_others_result m (ModelSelector.hwords (self w')) [] w')
      as Ho.
    pose proof (proj1 (respects_for_each (ModelSelector.hwords (self w'))
                         (SelectorDIC_other (Some m))
                         (respects_SelectorDIC_other (Some m)) []) w') as Hs'.
    pose proof (keeps_filters_for_each (ModelSelector.hwords (self w'))
                  (SelectorDIC_other (Some m))
                  (keeps_filters_SelectorDIC_other (Some m)) [] w') as Hf'.
    destruct (for_each _ _ _ w') as [o w'']. cbn [fst snd] in Ho, Hs', Hf'. subst o.
    fold (other_words (self w')) in *.
    destruct (logliks m (other_words (self w'))) as [others | ] eqn:Hl; cbn [app].
    + unfold bind, attr. cbn [fst snd]. rewrite score_run, Hs'.
      destruct (loglik m _ _) as [L | ] eqn:HL; cbn [fst snd].
      * rewrite np_mean_run. unfold record. cbn [fst snd filters]. rewrite Hf'.
        destruct (np.mean_warns others); cbn [andb orb];
          destruct (raises_RuntimeWarning (filters w')) eqn:Hraise;
          cbn [fst snd ret score_list andb];
          try (rewrite app_nil_r; reflexivity);
          rewrite np_sub_run; cbn [filters]; rewrite Hraise;
          destruct (np.sub_warns L (np.mean others));
          cbn [fst snd ret score_list andb];
          try (rewrite app_nil_r); reflexivity.
      * cbn [score_list]. rewrite app_nil_r. reflexivity.
    + cbn [score_list]. rewrite app_nil_r. reflexivity.
  - cbn [score_list]. rewrite app_nil_r.
    destruct (for_each _ _ _ w') as [[others | e] w'']; reflexivity.
Qed.

Lemma SelectorDIC_loop (l : list Z) (dic_scores : list float) (w : World) :
  fst (for_each l SelectorDIC_body dic_scores w)
  = Return (dic_scores
            ++ recorded (DIC_at (raises_RuntimeWarning (filters w)) (self w)) l).
Proof.
  revert dic_scores w. induction l as [ | n l IH]; intros dic_scores w;
    cbn [for_each].
  - simpl. rewrite app_nil_r. reflexivity.
  - unfold bind.
    pose proof (SelectorDIC_body_result n dic_scores w) as Hr.
    pose proof (proj1 (respects_SelectorDIC_body n dic_scores) w) as Hs.
    pose proof (pushes_raises w (pushes_SelectorDIC_body n dic_scores)) as Hf.
    destruct (SelectorDIC_body n dic_scores w) as [o w']. simpl in Hr, Hs, Hf. subst o.
    rewrite IH, Hs, Hf, recorded_cons, app_assoc. reflexivity.
Qed.

(** An entry that cannot be scored makes the whole list of scores fail. *)
Lemma logliks_none (m : GaussianHMM) (items : dict (matrix * list nat))
  (word : string) (X : matrix) (lengths : list nat) :
  In (word, (X, lengths)) items -> loglik m X lengths = None ->
  logliks m items = None.
Proof.
  induction items as [ | [word' [X' lengths']] items IH]; intros Hin Hl.
  - destruct Hin.
  - cbn [logliks]. destruct Hin as [Heq | Hin].
    + injection Heq as -> -> ->. rewrite Hl. reflexivity.
    + destruct (loglik m X' lengths'); [ | reflexivity ].
      rewrite (IH Hin Hl). reflexivity.
Qed.

(** What SelectorBIC returns: the model retrained with the index of the
    first minimal recorded score plus two states, or with [n_constant] plus
    two states when nothing was recorded. *)
Lemma SelectorBIC_select_result (w : World) :
  fst (SelectorBIC_select w)
  = Return (trained (self w)
              (match np.argmin (recorded (BIC (self w)) (candidates (self w))) with
               | Some i => Z.of_nat i
               | None => ModelSelector.n_constant (self w)
               end + 2)).
Proof.
  unfold SelectorBIC_select, filterwarnings, candidates. py_run.
  match goal with
  | |- context [for_each ?l _ [] ?w1] =>
      pose proof (SelectorBIC_loop l [] w1) as Hr;
      pose proof (proj1 (respects_for_each l SelectorBIC_body
                           respects_SelectorBIC_body []) w1) as Hs;
      destruct (for_each l SelectorBIC_body [] w1) as [o w2]
  end.
  cbn [fst snd self app] in Hr, Hs. subst o.
  destruct (recorded _ _) as [ | b bs]; unfold np_argmin, np.argmin; py_run.
  - rewrite base_model_result, Hs. reflexivity.
  - rewrite base_model_result, Hs. reflexivity.
Qed.

(** What SelectorDIC returns: the same with the first maximal score, the
    scores being those recorded under the caller's warning filters. *)
Lemma SelectorDIC_select_result (w : World) :
  fst (SelectorDIC_select w)
  = Return (trained (self w)
              (match np.argmax (recorded (DIC_at (raises_RuntimeWarning (filters w))
                                             (self w))
                                  (candidates (self w))) with
               | Some i => Z.of_nat i
               | None => ModelSelector.n_constant (self w)
               end + 2)).
Proof.
  unfold SelectorDIC_select, filterwarnings, candidates. py_run.
  match goal with
  | |- context [for_each ?l _ [] ?w1] =>
      pose proof (SelectorDIC_loop l [] w1) as Hr;
      pose proof (proj1 (respects_for_each l SelectorDIC_body
                           respects_SelectorDIC_body []) w1) as Hs;
      destruct (for_each l SelectorDIC_body [] w1) as [o w2]
  end.
  cbn [fst snd self filters app] in Hr, Hs.
  change (("ignore"%string, "DeprecationWarning"%string)
          :: remove_first ("ignore"%string, "DeprecationWarning"%string) (filters w))
    with (pushed ignore_deprecation (filters w)) in Hr.
  rewrite raises_pushed in Hr.
  change (matches_RuntimeWarning (snd ignore_deprecation)) with false in Hr.
  cbv iota in Hr. subst o.
  destruct (recorded _ _) as [ | b bs]; unfold np_argmax, np.argmax; py_run.
  - rewrite base_model_result, Hs. reflexivity.
  - rewrite base_model_result, Hs. reflexivity.
Qed.

Lemma SelectorConstant_select_result (w : World) :
  fst (SelectorConstant_select w)
  = Return (trained (self w) (ModelSelector.n_constant (self w))).
Proof. unfold SelectorConstant_select. py_run. apply base_model_result. Qed.

End Scores.

(** ** Cross-validation *)

Section CrossValidation.

Context {E : Externals}.

Lemma ltb_nan_r (x : float) : (x <? nan)%float = false.
Proof.
  rewrite ltb_spec. unfold SFltb.
  replace (Prim2SF nan) with S754_nan by reflexivity.
  destruct (Prim2SF x); reflexivity.
Qed.

Lemma mean_nil : np.mean [] = nan.
Proof. reflexivity. Qed.

Lemma indicator_sum (r a len : nat) :
  list_sum (map (fun i => if (i <? r)%nat then 1 else 0)%nat (seq a len))
  = (Nat.min (a + len) r - Nat.min a r)%nat.
Proof.
  revert a. induction len as [ | len IH]; intros a; simpl.
  - rewrite Nat.add_0_r. lia.
  - rewrite IH. destruct (Nat.ltb_spec a r); lia.
Qed.

Lemma shifted_sum (q : nat) (f : nat -> nat) (l : list nat) :
  list_sum (map (fun i => q + f i)%nat l)
  = (List.length l * q + list_sum (map f l))%nat.
Proof.
  induction l as [ | i l IH]; simpl; [ reflexivity | ]. rewrite IH. lia.
Qed.

(** The fold sizes add up to the number of samples. *)
Lemma fold_sizes_sum (n_samples n_splits : nat) :
  (0 < n_splits)%nat -> list_sum (fold_sizes n_samples n_splits) = n_samples.
Proof.
  intros Hk. unfold fold_sizes.
  rewrite shifted_sum, indicator_sum, length_seq. simpl.
  pose proof (Nat.mod_upper_bound n_samples n_splits ltac:(lia)) as Hm.
  pose proof (Nat.div_mod_eq n_samples n_splits) as Hd.
  rewrite Nat.min_r by lia. lia.
Qed.

Lemma fold_indices_valid (n_samples : nat) (sizes : list nat) (current : nat) :
  (current + list_sum sizes <= n_samples)%nat ->
  Forall (valid_split n_samples) (fold_indices n_samples current sizes).
Proof.
  revert current. induction sizes as [ | size rest IH]; intros current Hle; simpl.
  - constructor.
  - simpl in Hle. constructor.
    + split; simpl; apply Forall_forall; intros i Hi.
      * apply in_app_iff in Hi. destruct Hi as [Hi | Hi]; apply in_seq in Hi; lia.
      * apply in_seq in Hi. lia.
    + apply IH. lia.
Qed.

Lemma folds_of_valid (s : ModelSelector.t) :
  (2 <= List.length (ModelSelector.sequences s))%nat ->
  Forall (valid_split (List.length (ModelSelector.sequences s))) (folds_of s).
Proof.
  intros Hlen. unfold folds_of. apply fold_indices_valid.
  rewrite fold_sizes_sum; lia.
Qed.

Lemma concat_selected_valid (idx : list nat) (sequences : list instance) :
  Forall (fun i => (i < List.length sequences)%nat) idx ->
  exists r, concat_selected idx sequences = Some r.
Proof.
  induction 1 as [ | i idx Hi _ [[X lengths] IH]]; simpl.
  - eexists. reflexivity.
  - apply nth_error_Some in Hi.
    destruct (nth_error sequences i) as [s | ]; [ | congruence ].
    rewrite IH. eexists. reflexivity.
Qed.

(** One fold always completes; it can only replace the best score and model
    when it has produced a test score. *)
Lemma SelectorCV_fold_returns (n : Z) (split : list nat * list nat) (loc : cv_locals)
  (w : World) :
  valid_split (List.length (ModelSelector.sequences (self w))) split ->
  exists loc',
    fst (SelectorCV_fold n split loc w) = Return loc' /\
    (fold_score (self w) n split = None ->
     best_score loc' = best_score loc /\ best_model loc' = best_model loc).
Proof.
  destruct split as [train_x test_x]. intros [Htr Hte]. simpl in Htr, Hte.
  destruct (concat_selected_valid _ Htr) as [[X_train Y_train] Ctr].
  destruct (concat_selected_valid _ Hte) as [[X_test Y_test] Cte].
  unfold fold_score, SelectorCV_fold. cbn [fst snd].
  py_run. rewrite Ctr. py_run. rewrite Cte. py_run.
  destruct (em_fit _ _ _) as [p | ]; py_run.
  - destruct (forward_score _ _ _ _) as [l | ]; py_run.
    + destruct (best_score loc <? np.mean [l])%float; py_run;
        eexists; (split; [ reflexivity | discriminate ]).
    + rewrite mean_nil, ltb_nan_r.
      eexists. split; [ reflexivity | intros _; split; reflexivity ].
  - rewrite mean_nil, ltb_nan_r.
    eexists. split; [ reflexivity | intros _; split; reflexivity ].
Qed.

Lemma SelectorCV_folds_return (n : Z) (folds : list (list nat * list nat))
  (loc : cv_locals) (w : World) :
  Forall (valid_split (List.length (ModelSelector.sequences (self w)))) folds ->
  exists loc',
    fst (for_each folds (SelectorCV_fold n) loc w) = Return loc' /\
    ((forall split, In split folds -> fold_score (self w) n split = None) ->
     best_score loc' = best_score loc /\ best_model loc' = best_model loc).
Proof.
  revert loc w. induction folds as [ | split folds IH]; intros loc w Hv;
    cbn [for_each].
  - exists loc. split; [ reflexivity | intros _; split; reflexivity ].
  - inversion Hv as [ | ? ? Hsplit Hfolds ]; subst.
    destruct (SelectorCV_fold_returns n loc w Hsplit) as (loc1 & Hr & Hkeep).
    pose proof (proj1 (respects_SelectorCV_fold n split loc) w) as Hs.
    unfold bind.
    destruct (SelectorCV_fold n split loc w) as [o w1]. simpl in Hr, Hs. subst o.
    rewrite <- Hs in Hfolds.
    destruct (IH loc1 w1 Hfolds) as (loc2 & Hr2 & Hkeep2).
    exists loc2. split; [ exact Hr2 | ].
    intros Hnone. rewrite Hs in Hkeep2.
    destruct Hkeep as [H1 H2]; [ apply Hnone; left; reflexivity | ].
    destruct Hkeep2 as [H3 H4]; [ intros sp Hin; apply Hnone; right; exact Hin | ].
    split; congruence.
Qed.

(** One candidate [n] always completes; when none of its folds produces a
    test score, the best score and model are what they were. *)
Lemma SelectorCV_body_returns (n : Z) (loc : cv_locals) (w : World) :
  exists loc',
    fst (SelectorCV_body n loc w) = Return loc' /\
    ((forall split, In split (folds_of (self w)) -> fold_score (self w) n split = None) ->
     best_score loc' = best_score loc /\ best_model loc' = best_model loc).
Proof.
  unfold SelectorCV_body, KFold, KFold_split. py_run.
  destruct (Nat.leb_spec (List.length (ModelSelector.sequences (self w))) 1) as [Hle | Hgt].
  - exists loc. split; [ reflexivity | intros _; split; reflexivity ].
  - destruct (Nat.leb_spec (Nat.min 3 (List.length (ModelSelector.sequences (self w)))) 1)
      as [Hbad | _]; [ lia | ].
    py_run.
    destruct (Nat.ltb_spec (List.length (ModelSelector.sequences (self w)))
                (Nat.min 3 (List.length (ModelSelector.sequences (self w)))))
      as [Hbad | _]; [ lia | ].
    py_run.
    match goal with
    | |- context [for_each _ _ loc ?w2] =>
        destruct (@SelectorCV_folds_return n (folds_of (self w)) loc w2)
          as (loc' & Hr & Hkeep)
    end.
    + cbn [self]. apply folds_of_valid. lia.
    + exists loc'. split; [ exact Hr | exact Hkeep ].
Qed.

Lemma SelectorCV_loop_returns (l : list Z) (loc : cv_locals) (w : World) :
  exists loc',
    fst (for_each l SelectorCV_body loc w) = Return loc' /\
    ((forall n split, In n l -> In split (folds_of (self w)) ->
                      fold_score (self w) n split = None) ->
     best_score loc' = best_score loc /\ best_model loc' = best_model loc).
Proof.
  revert loc w. induction l as [ | n l IH]; intros loc w; cbn [for_each].
  - exists loc. split; [ reflexivity | intros _; split; reflexivity ].
  - destruct (SelectorCV_body_returns n loc w) as (loc1 & Hr & Hkeep).
    pose proof (proj1 (respects_SelectorCV_body n loc) w) as Hs.
    unfold bind.
    destruct (SelectorCV_body n loc w) as [o w1]. simpl in Hr, Hs. subst o.
    destruct (IH loc1 w1) as (loc2 & Hr2 & Hkeep2).
    exists loc2. split; [ exact Hr2 | ].
    intros Hnone. rewrite Hs in Hkeep2.
    destruct Hkeep as [H1 H2];
      [ intros sp Hin; apply Hnone; [ left; reflexivity | exact Hin ] | ].
    destruct Hkeep2 as [H3 H4];
      [ intros m sp Hm Hin; apply Hnone; [ right; exact Hm | exact Hin ] | ].
    split; congruence.
Qed.

(** What SelectorCV returns: the model kept by the loop, or the constant
    fallback when the loop kept none. *)
Lemma SelectorCV_select_cases (w : World) :
  exists loc w1,
    self w1 = self w /\
    fst (for_each (candidates (self w)) SelectorCV_body
           {| best_score := neg_infinity; best_model := None; _model := None |} w1)
    = Return loc /\
    fst (SelectorCV_select w)
    = Return (match best_model loc with
              | Some m => Some m
              | None => trained (self w) (ModelSelector.n_constant (self w))
              end).
Proof.
  unfold SelectorCV_select, filterwarnings, candidates. py_run.
  match goal with
  | |- context [for_each ?l _ ?loc0 ?w1] =>
      destruct (SelectorCV_loop_returns l loc0 w1) as (loc & Hr & _);
      pose proof (proj1 (respects_for_each l SelectorCV_body
                           respects_SelectorCV_body loc0) w1) as Hs;
      exists loc, w1; split; [ reflexivity | split; [ exact Hr | ] ];
      destruct (for_each l SelectorCV_body loc0 w1) as [o w2]
  end.
  cbn [fst snd self] in Hr, Hs. subst o.
  destruct (best_model loc) as [m | ]; py_run; [ reflexivity | ].
  rewrite base_model_result, Hs. reflexivity.
Qed.

End CrossValidation.

(** ** Properties of the selectors, for every engine and every catalog *)

Section Properties.

Context {E : Externals}.

(** None of the four strategies lets an exception escape: [select()]
    always comes back with a model or with [None]. *)
Lemma select_returns (k : strategy) (w : World) :
  exists r, fst (select k w) = Return r.
Proof.
  destruct k; cbn [select].
  - eexists. apply SelectorConstant_select_result.
  - eexists. apply SelectorBIC_select_result.
  - eexists. apply SelectorDIC_select_result.
  - destruct (SelectorCV_select_cases w) as (loc & w1 & _ & _ & Hsel).
    eexists. exact Hsel.
Qed.

Lemma init_same_inputs (seqs : dict (list instance)) (mats : dict (matrix * list nat))
  (word : string) (n_constant min_n max_n seed : Z) (v1 v2 : bool)
  (s1 s2 : ModelSelector.t) :
  ModelSelector_init seqs mats word n_constant min_n max_n seed v1 = Return s1 ->
  ModelSelector_init seqs mats word n_constant min_n max_n seed v2 = Return s2 ->
  same_inputs s1 s2.
Proof.
  unfold ModelSelector_init.
  destruct (getitem seqs word) as [sq | ]; [ | discriminate ].
  destruct (getitem mats word) as [[X lengths] | ]; [ | discriminate ].
  intros H1 H2. injection H1 as <-. injection H2 as <-.
  repeat split.
Qed.

Lemma SelectorCV_loop_skips (l : list Z) (loc : cv_locals) (w : World) :
  (List.length (ModelSelector.sequences (self w)) <= 1)%nat ->
  for_each l SelectorCV_body loc w = (Return loc, w).
Proof.
  intros Hlen. induction l as [ | n l IH]; cbn [for_each]; [ reflexivity | ].
  unfold SelectorCV_body at 1. py_run.
  destruct (Nat.leb_spec (List.length (ModelSelector.sequences (self w))) 1);
    [ exact IH | lia ].
Qed.

(** C4: for each candidate [n] that SelectorBIC trains and scores, the score
    appended to [bic_scores] is -2 L + p ln N, where L is the log-likelihood
    of the word's full data under the n-state model, p = n^2 + 2 n d - 1 with
    d the number of features, and N the number of rows of the word's matrix,
    as long as p, a Python integer, has a float to be converted to; a turn
    of the loop appends exactly the candidate's BIC when it has one, and the
    finished loop holds the BIC of the candidates that have one.  When p is
    beyond the floats the multiplication raises and the turn appends
    nothing. *)
Theorem SelectorBIC_records_BIC (w : World) (n : Z) (bic_scores : list float) :
  fst (SelectorBIC_body n bic_scores w)
  = Return (bic_scores ++ score_list (BIC (self w) n))
  /\ fst (for_each (candidates (self w)) SelectorBIC_body [] w)
     = Return (recorded (BIC (self w)) (candidates (self w)))
  /\ (forall m L,
        trained (self w) n = Some m ->
        loglik m (ModelSelector.X (self w)) (ModelSelector.lengths (self w)) = Some L ->
        shape0 (ModelSelector.X (self w)) <> 0%nat ->
        PrimFloat.is_infinity
          (np.float_of_Z (n ^ 2 + 2 * n * Z.of_nat (n_features m) - 1)) = false ->
        n_features m = shape1 (ModelSelector.X (self w)) /\
        fst (SelectorBIC_body n bic_scores w)
        = Return (bic_scores ++
                  [(np.float_of_Z (-2) * L
                    + np.float_of_Z (n ^ 2 + 2 * n * Z.of_nat (n_features m) - 1)
                      * math_log_of_int
                          (Z.of_nat (shape0 (ModelSelector.X (self w)))))%float]))
  /\ (forall m,
        trained (self w) n = Some m ->
        PrimFloat.is_infinity
          (np.float_of_Z (n ^ 2 + 2 * n * Z.of_nat (n_features m) - 1)) = true ->
        fst (SelectorBIC_body n bic_scores w) = Return bic_scores).
Proof.
  split; [ apply SelectorBIC_body_result | ].
  split; [ apply (SelectorBIC_loop (candidates (self w)) [] w) | ].
  split.
  - intros m L Ht HL HN Hp.
    pose proof (trained_n_features _ _ Ht) as Hd.
    split; [ exact Hd | ].
    rewrite SelectorBIC_body_result. unfold BIC. rewrite Ht, HL.
    rewrite Hd in Hp |- *. 
    destruct (shape0 (ModelSelector.X (self w))); [ congruence | ].
    rewrite Hp. reflexivity.
  - intros m Ht Hp.
    pose proof (trained_n_features _ _ Ht) as Hd.
    rewrite SelectorBIC_body_result. unfold BIC. rewrite Ht.
    rewrite Hd in Hp.
    destruct (loglik m _ _); [ | cbn [score_list]; apply f_equal, app_nil_r ].
    destruct (shape0 (ModelSelector.X (self w)));
      [ cbn [score_list]; apply f_equal, app_nil_r | ].
    rewrite Hp. cbn [score_list]. apply f_equal, app_nil_r.
Qed.

(** C5: for each candidate [n] that SelectorDIC retains, the score appended
    to [dic_scores] is L_self minus the arithmetic mean of the
    log-likelihoods of every other word's data under the same model, the
    mean being numpy's sum of the scores divided by their number; when a
    single other word cannot be scored the turn appends nothing.  The mean
    and the subtraction are numpy's and may warn: under warning filters
    that turn a RuntimeWarning into an exception a candidate for which they
    do is not retained.  With no other word in the catalog the mean of no
    scores is taken, which warns: the turn appends [nan] when the filters
    let the warning pass and nothing when they do not. *)
Theorem SelectorDIC_records_DIC (w : World) (n : Z) (dic_scores : list float) :
  fst (SelectorDIC_body n dic_scores w)
  = Return (dic_scores
            ++ score_list (DIC_at (raises_RuntimeWarning (filters w)) (self w) n))
  /\ fst (for_each (candidates (self w)) SelectorDIC_body [] w)
     = Return (recorded (DIC_at (raises_RuntimeWarning (filters w)) (self w))
                 (candidates (self w)))
  /\ (forall m others L_self,
        trained (self w) n = Some m ->
        logliks m (other_words (self w)) = Some others ->
        loglik m (ModelSelector.X (self w)) (ModelSelector.lengths (self w))
        = Some L_self ->
        List.length others = List.length (other_words (self w)) /\
        (raises_RuntimeWarning (filters w) = false
         \/ (np.mean_warns others = false
             /\ np.sub_warns L_self (np.mean others) = false) ->
         fst (SelectorDIC_body n dic_scores w)
         = Return (dic_scores ++
                   [(L_self - np.sum others
                              / np.float_of_Z (Z.of_nat (List.length others)))%float])) /\
        (raises_RuntimeWarning (filters w) = true ->
         np.mean_warns others = true
         \/ np.sub_warns L_self (np.mean others) = true ->
         fst (SelectorDIC_body n dic_scores w) = Return dic_scores))
  /\ (other_words (self w) = [] ->
      (raises_RuntimeWarning (filters w) = true ->
       fst (SelectorDIC_body n dic_scores w) = Return dic_scores) /\
      (raises_RuntimeWarning (filters w) = false ->
       forall m L_self,
         trained (self w) n = Some m ->
         loglik m (ModelSelector.X (self w)) (ModelSelector.lengths (self w))
         = Some L_self ->
         fst (SelectorDIC_body n dic_scores w)
         = Return (dic_scores ++ [(L_self - nan)%float])))
  /\ (forall m word Xw lw,
        trained (self w) n = Some m ->
        In (word, (Xw, lw)) (ModelSelector.hwords (self w)) ->
        word <> ModelSelector.this_word (self w) ->
        loglik m Xw lw = None ->
        fst (SelectorDIC_body n dic_scores w) = Return dic_scores).
Proof.
  split; [ apply SelectorDIC_body_result | ].
  split; [ apply (SelectorDIC_loop (candidates (self w)) [] w) | ].
  split; [ | split ].
  - intros m others L_self Ht Ho Hs.
    split; [ apply (logliks_length _ _ Ho) | ].
    rewrite SelectorDIC_body_result. unfold DIC_at. rewrite Ht, Ho, Hs.
    split.
    + intros [Hf | [Hm Hsub]].
      * rewrite Hf. reflexivity.
      * rewrite Hm, Hsub, andb_false_r. reflexivity.
    + intros Hf Hwarn. rewrite Hf.
      destruct Hwarn as [Hm | Hsub].
      * rewrite Hm. cbn [andb orb score_list]. apply f_equal, app_nil_r.
      * rewrite Hsub, orb_true_r. cbn [andb score_list]. apply f_equal, app_nil_r.
  - intros Hnone. split.
    + intros Hfatal. rewrite SelectorDIC_body_result, Hfatal.
      rewrite (DIC_at_alone _ _ Hnone). cbn [score_list]. apply f_equal, app_nil_r.
    + intros Hfatal m L_self Ht Hs. rewrite SelectorDIC_body_result.
      rewrite Hfatal, DIC_at_false. unfold DIC.
      rewrite Ht, Hnone, Hs. reflexivity.
  - intros m word Xw lw Ht Hin Hne Hl.
    assert (Hin' : In (word, (Xw, lw)) (other_words (self w))).
    { unfold other_words. apply filter_In. split; [ exact Hin | ].
      cbn [fst]. apply negb_true_iff, String.eqb_neq, Hne. }
    rewrite SelectorDIC_body_result. unfold DIC_at. rewrite Ht.
    rewrite (logliks_none m (other_words (self w)) word Xw lw Hin' Hl).
    cbn [score_list]. apply f_equal, app_nil_r.
Qed.

(** C6: a candidate none of whose folds yields a test score leaves the best
    score and the best model untouched, the mean of its empty score list
    being [nan], which is greater than nothing; and when no fold of any
    candidate yields a score, SelectorCV returns what
    [base_model(n_constant)] returns. *)
Theorem SelectorCV_empty_folds_never_win (w : World) :
  (forall n loc,
     (forall split, In split (folds_of (self w)) ->
                    fold_score (self w) n split = None) ->
     exists loc',
       fst (SelectorCV_body n loc w) = Return loc' /\
       best_score loc' = best_score loc /\ best_model loc' = best_model loc)
  /\ ((forall n split, In n (candidates (self w)) -> In split (folds_of (self w)) ->
                       fold_score (self w) n split = None) ->
      fst (SelectorCV_select w)
      = fst (base_model (ModelSelector.n_constant (self w)) w)).
Proof.
  split.
  - intros n loc Hnone.
    destruct (SelectorCV_body_returns n loc w) as (loc' & Hr & Hkeep).
    exists loc'. split; [ exact Hr | exact (Hkeep Hnone) ].
  - intros Hnone.
    destruct (SelectorCV_select_cases w) as (loc & w1 & Hs & Hr & Hsel).
    destruct (SelectorCV_loop_returns (candidates (self w))
                {| best_score := neg_infinity; best_model := None; _model := None |} w1)
      as (loc' & Hr' & Hkeep).
    rewrite Hr in Hr'. injection Hr' as <-.
    rewrite Hs in Hkeep. destruct (Hkeep Hnone) as [_ Hbest].
    cbn [best_model] in Hbest.
    rewrite Hsel, Hbest, base_model_result. reflexivity.
Qed.

(** C7: for a word with at most one recorded instance SelectorCV does what
    [base_model(n_constant)] does and nothing else: no fold is split, no
    fold model is trained or scored, and the only call to an external
    collaborator is the fallback's training on the full data. *)
Theorem SelectorCV_single_instance_falls_back (w : World) :
  (List.length (ModelSelector.sequences (self w)) <= 1)%nat ->
  SelectorCV_select w
  = base_model (ModelSelector.n_constant (self w))
      (snd (filterwarnings "ignore" "Warning" w))
  /\ calls (snd (SelectorCV_select w))
     = calls w ++ [fit_call (hyper_for (self w) (ModelSelector.n_constant (self w)))
                            (ModelSelector.X (self w)) (ModelSelector.lengths (self w))].
Proof.
  intros Hlen.
  assert (Hsel : SelectorCV_select w
                 = base_model (ModelSelector.n_constant (self w))
                     (snd (filterwarnings "ignore" "Warning" w))).
  { unfold SelectorCV_select, filterwarnings. py_run.
    rewrite SelectorCV_loop_skips by exact Hlen.
    reflexivity. }
  split; [ exact Hsel | ].
  rewrite Hsel, base_model_calls. reflexivity.
Qed.

Lemma same_inputs_refl (s : ModelSelector.t) : same_inputs s s.
Proof. repeat split. Qed.

(** SelectorCV's result does not depend on the warning filters it is
    called under: its first line puts its own in front. *)
Lemma SelectorCV_select_under (fs : list (string * string)) (w : World) :
  fst (SelectorCV_select (under fs w)) = fst (SelectorCV_select w).
Proof.
  unfold SelectorCV_select.
  match goal with
  | |- fst (bind ?c ?k _) = _ =>
      assert (Hk : respects (k tt))
        by (cbv beta;
            repeat first [ apply respects_SelectorCV_body
                         | apply respects_base_model | respects_step ])
  end.
  unfold bind at 1 6. unfold filterwarnings at 1 2. cbn [fst snd].
  apply (proj2 Hk). split; [ apply same_inputs_refl | ].
  cbn [filters].
  change (raises_RuntimeWarning (pushed ignore_all fs)
          = raises_RuntimeWarning (pushed ignore_all (filters w))).
  rewrite !raises_pushed. reflexivity.
Qed.

(** The result of [select()] depends on the warning filters for
    SelectorDIC only, and there only through what they do with a
    RuntimeWarning. *)
Lemma select_under (k : strategy) (fs : list (string * string)) (w : World) :
  (k = ByDIC -> raises_RuntimeWarning fs = raises_RuntimeWarning (filters w)) ->
  fst (select k (under fs w)) = fst (select k w).
Proof.
  intros Hf. destruct k; cbn [select].
  - rewrite !SelectorConstant_select_result. reflexivity.
  - rewrite !SelectorBIC_select_result. reflexivity.
  - rewrite !SelectorDIC_select_result. cbn [under self filters].
    rewrite (Hf eq_refl). reflexivity.
  - apply SelectorCV_select_under.
Qed.

(** What SelectorCV leaves in the warning filters: the entry that ignores
    every warning in front, and before it the one that ignores
    DeprecationWarning when the loop kept no model and the fallback ran. *)
Lemma SelectorCV_select_filters (w : World) :
  exists loc,
    fst (for_each (candidates (self w)) SelectorCV_body
           {| best_score := neg_infinity; best_model := None; _model := None |}
           (snd (filterwarnings "ignore" "Warning" w)))
    = Return loc /\
    filters (snd (SelectorCV_select w))
    = match best_model loc with
      | Some _ => pushed ignore_all (filters w)
      | None => pushed ignore_deprecation (pushed ignore_all (filters w))
      end.
Proof.
  unfold SelectorCV_select, filterwarnings, candidates. py_run.
  match goal with
  | |- context [for_each ?l _ ?loc0 ?w1] =>
      destruct (SelectorCV_loop_returns l loc0 w1) as (loc & Hr & _);
      pose proof (SelectorCV_loop_filters l loc0 w1) as Hf;
      exists loc; split; [ exact Hr | ];
      destruct (for_each l SelectorCV_body loc0 w1) as [o w2]
  end.
  cbn [fst snd filters] in Hr, Hf. subst o.
  destruct (best_model loc) as [m | ]; py_run; [ exact Hf | ].
  rewrite base_model_filters, Hf. reflexivity.
Qed.

(** C9, as the code has it: two selectors of one strategy built from the
    same catalogs, word, range, fallback and seed return models with the
    same state count, whatever their verbosity and whatever else the
    process did before, provided that, for SelectorDIC, the two calls run
    under warning filters that agree on whether a RuntimeWarning is an
    error; the trainer, being a function of its arguments, is
    deterministic. *)
Theorem select_deterministic_under_like_filters (k : strategy)
  (seqs : dict (list instance)) (mats : dict (matrix * list nat)) (word : string)
  (n_constant min_n max_n seed : Z) (v1 v2 : bool)
  (s1 s2 : ModelSelector.t) (w1 w2 : World) :
  ModelSelector_init seqs mats word n_constant min_n max_n seed v1 = Return s1 ->
  ModelSelector_init seqs mats word n_constant min_n max_n seed v2 = Return s2 ->
  self w1 = s1 -> self w2 = s2 ->
  (k = ByDIC ->
   raises_RuntimeWarning (filters w1) = raises_RuntimeWarning (filters w2)) ->
  exists r1 r2,
    fst (select k w1) = Return r1 /\
    fst (select k w2) = Return r2 /\
    state_count r1 = state_count r2.
Proof.
  intros H1 H2 Hw1 Hw2 Hf.
  pose proof (init_same_inputs _ _ _ _ _ _ _ _ _ H1 H2) as Hsame.
  rewrite <- Hw1, <- Hw2 in Hsame.
  assert (Halike : alike w1 (under (filters w1) w2)).
  { split; [ exact Hsame | reflexivity ]. }
  pose proof (proj1 (proj2 (respects_select k) w1 _ Halike)) as Heq.
  rewrite (@select_under k (filters w1) w2 Hf) in Heq.
  destruct (select_returns k w1) as [r Hr].
  exists r, r. rewrite <- Heq. repeat split; exact Hr.
Qed.

(** C10, as the code has it: a [select()] call of any strategy leaves the
    selector object as it found it, that is the two catalogs it refers to
    and its word, range, fallback, seed and verbosity; but it does write
    outside the models it creates, to the warning filters of the process:
    SelectorConstant, SelectorBIC and SelectorDIC leave the entry that
    ignores DeprecationWarning in front, SelectorCV the entry that ignores
    every warning, with the former before it when the fallback ran. *)
Theorem select_frame_and_filters (k : strategy) (w : World) :
  self (snd (select k w)) = self w
  /\ match k with
     | ByCV =>
         exists loc,
           fst (for_each (candidates (self w)) SelectorCV_body
                  {| best_score := neg_infinity; best_model := None; _model := None |}
                  (snd (filterwarnings "ignore" "Warning" w)))
           = Return loc /\
           filters (snd (select k w))
           = match best_model loc with
             | Some _ => pushed ignore_all (filters w)
             | None => pushed ignore_deprecation (pushed ignore_all (filters w))
             end
     | _ => filters (snd (select k w)) = pushed ignore_deprecation (filters w)
     end.
Proof.
  split; [ exact (proj1 (respects_select k) w) | ].
  destruct k; cbn [select].
  - apply settles_SelectorConstant_select.
  - apply settles_SelectorBIC_select.
  - apply settles_SelectorDIC_select.
  - apply SelectorCV_select_filters.
Qed.

End Properties.

(** ** When the fixed offset happens to be right *)

Section Alignment.

Context {E : Externals}.

Lemma SFcompare_antisym (x y : spec_float) :
  SFcompare y x = option_map CompOpp (SFcompare x y).
Proof.
  destruct x as [sx | sx | | sx mx ex], y as [sy | sy | | sy my ey]; simpl;
    try reflexivity;
    try (destruct sx; reflexivity); try (destruct sy; reflexivity);
    try (destruct sx, sy; reflexivity).
  destruct sx, sy; simpl; try reflexivity.
  - rewrite (Z.compare_antisym ex ey).
    destruct (ex ?= ey)%Z; simpl; try reflexivity.
    rewrite CompOpp_involutive, (Pos.compare_cont_antisym my mx Eq). reflexivity.
  - rewrite (Z.compare_antisym ex ey).
    destruct (ex ?= ey)%Z; simpl; try reflexivity.
    rewrite (Pos.compare_cont_antisym mx my Eq). reflexivity.
Qed.

Lemma SFcompare_defined (x y : spec_float) :
  SFeqb x x = true -> SFeqb y y = true -> exists c, SFcompare x y = Some c.
Proof.
  unfold SFeqb.
  destruct x as [sx | sx | | sx mx ex], y as [sy | sy | | sy my ey]; simpl;
    intros Hx Hy; try discriminate; eexists; reflexivity.
Qed.

(** Away from [nan] the order of floats is total: [x <= y] fails exactly
    when [y < x]. *)
Lemma not_leb_ltb (x y : float) :
  is_nan x = false -> is_nan y = false -> negb (x <=? y)%float = (y <? x)%float.
Proof.
  unfold is_nan. rewrite !eqb_spec, leb_spec, ltb_spec.
  intros Hx Hy. apply negb_false_iff in Hx, Hy.
  destruct (SFcompare_defined _ _ Hx Hy) as [c Hc].
  unfold SFleb, SFltb. rewrite (SFcompare_antisym (Prim2SF x) (Prim2SF y)), Hc.
  destruct c; reflexivity.
Qed.

Lemma argmin_scan_first_best (a : Z) (l : list float) (mp : float) (mi i : nat) :
  is_nan mp = false -> Forall (fun x => is_nan x = false) l ->
  (a + Z.of_nat (np.argmin_scan mp mi i l))%Z
  = first_best lower (a + Z.of_nat mi, mp)%Z (numbered a i l).
Proof.
  revert mp mi i. induction l as [ | x l IH]; intros mp mi i Hmp Hl;
    [ reflexivity | ].
  inversion Hl as [ | ? ? Hx Hl' ]; subst.
  cbn [np.argmin_scan numbered List.length seq map combine first_best snd].
  rewrite (not_leb_ltb mp x Hmp Hx). unfold lower at 1.
  destruct (x <? mp)%float.
  - rewrite Hx. apply (IH x i (S i) Hx Hl').
  - apply (IH mp mi (S i) Hmp Hl').
Qed.

Lemma argmax_scan_first_best (a : Z) (l : list float) (mp : float) (mi i : nat) :
  is_nan mp = false -> Forall (fun x => is_nan x = false) l ->
  (a + Z.of_nat (np.argmax_scan mp mi i l))%Z
  = first_best higher (a + Z.of_nat mi, mp)%Z (numbered a i l).
Proof.
  revert mp mi i. induction l as [ | x l IH]; intros mp mi i Hmp Hl;
    [ reflexivity | ].
  inversion Hl as [ | ? ? Hx Hl' ]; subst.
  cbn [np.argmax_scan numbered List.length seq map combine first_best snd].
  rewrite (not_leb_ltb x mp Hx Hmp). unfold higher at 1.
  destruct (mp <? x)%float.
  - rewrite Hx. apply (IH x i (S i) Hx Hl').
  - apply (IH mp mi (S i) Hmp Hl').
Qed.

(** When every candidate has a score that is not [nan], the records are the
    candidates paired with the recorded scores. *)
Lemma score_records_numbered (score_of : Z -> option float) (a : Z) (len i : nat) :
  (forall n, In n (map (fun k => a + Z.of_nat k)%Z (seq i len)) ->
             exists b, score_of n = Some b /\ is_nan b = false) ->
  let l := map (fun k => a + Z.of_nat k)%Z (seq i len) in
  score_records score_of l = numbered a i (recorded score_of l)
  /\ Forall (fun x => is_nan x = false) (recorded score_of l)
  /\ List.length (recorded score_of l) = len.
Proof.
  revert i. induction len as [ | len IH]; intros i Hall; cbn zeta.
  - repeat split. constructor.
  - cbn [seq map]. cbn [seq map] in Hall.
    destruct (Hall (a + Z.of_nat i)%Z (or_introl eq_refl)) as (b & Hb & Hnan).
    destruct (IH (S i) (fun n Hn => Hall n (or_intror Hn))) as (Hrec & Hfor & Hlen).
    unfold score_records, recorded in *. cbn [flat_map]. rewrite Hb.
    cbn [score_list app]. unfold numbered in *.
    cbn [List.length seq map combine]. rewrite Hlen in *.
    repeat split.
    + f_equal. exact Hrec.
    + constructor; assumption.
Qed.

(** With [min_n_components = 2] and a score that is not [nan] for every
    candidate, the index of the best score plus two is the state count of
    the best candidate, and SelectorBIC retrains with it. *)
Lemma SelectorBIC_best_when_aligned (w : World) :
  ModelSelector.min_n_components (self w) = 2%Z ->
  (forall n, In n (candidates (self w)) ->
             exists b, BIC (self w) n = Some b /\ is_nan b = false) ->
  fst (SelectorBIC_select w)
  = Return (trained (self w)
              match best_state lower
                      (score_records (BIC (self w)) (candidates (self w))) with
              | Some n => n
              | None => (ModelSelector.n_constant (self w) + 2)%Z
              end).
Proof.
  intros Hmin Hall. rewrite SelectorBIC_select_result.
  unfold candidates, range in *. rewrite Hmin in *.
  set (len := Z.to_nat (ModelSelector.max_n_components (self w) + 1 - 2)) in *.
  destruct (score_records_numbered (BIC (self w)) 2 len 0 Hall) as (Hrec & Hfor & Hlen).
  rewrite Hrec.
  destruct (recorded _ _) as [ | b bs]; [ reflexivity | ].
  inversion Hfor as [ | ? ? Hb Hbs ]; subst.
  cbn [np.argmin numbered List.length seq map combine best_state]. rewrite Hb.
  f_equal. f_equal.
  pose proof (@argmin_scan_first_best 2 bs b 0 1 Hb Hbs) as Hscan.
  unfold numbered in Hscan. rewrite <- Hscan. lia.
Qed.

(** The same for SelectorDIC and the highest score, the scores being
    those it records under the warning filters it is called with: with
    [min_n_components = 2] and a recorded score that is not [nan] for every
    candidate, it retrains with the state count of the best candidate. *)
Lemma SelectorDIC_best_when_aligned (w : World) :
  ModelSelector.min_n_components (self w) = 2%Z ->
  (forall n, In n (candidates (self w)) ->
             exists b, DIC_at (raises_RuntimeWarning (filters w)) (self w) n = Some b
                       /\ is_nan b = false) ->
  fst (SelectorDIC_select w)
  = Return (trained (self w)
              match best_state higher
                      (score_records (DIC_at (raises_RuntimeWarning (filters w))
                                        (self w))
                         (candidates (self w))) with
              | Some n => n
              | None => (ModelSelector.n_constant (self w) + 2)%Z
              end).
Proof.
  intros Hmin Hall. rewrite SelectorDIC_select_result.
  unfold candidates, range in *. rewrite Hmin in *.
  set (len := Z.to_nat (ModelSelector.max_n_components (self w) + 1 - 2)) in *.
  destruct (score_records_numbered
              (DIC_at (raises_RuntimeWarning (filters w)) (self w)) 2 len 0 Hall)
    as (Hrec & Hfor & Hlen).
  rewrite Hrec.
  destruct (recorded _ _) as [ | b bs]; [ reflexivity | ].
  inversion Hfor as [ | ? ? Hb Hbs ]; subst.
  cbn [np.argmax numbered List.length seq map combine best_state]. rewrite Hb.
  f_equal. f_equal.
  pose proof (@argmax_scan_first_best 2 bs b 0 1 Hb Hbs) as Hscan.
  unfold numbered in Hscan. rewrite <- Hscan. lia.
Qed.

End Alignment.

(** ** Runs on concrete engines and catalogs *)

(** C1: the state count SelectorBIC and SelectorDIC retrain with is the index
    of the best recorded score plus the constant 2, not the candidate that
    score belongs to.  With candidates 3, 4, 5 that all train and score, the
    lowest BIC and the highest DIC belong to 3 states and the model returned
    has 2; with candidates 2, 3, 4 of which 2 fails to train, the best
    scores again belong to 3 states and no model is returned at all. *)
Theorem fixed_offset_misses_best_state :
  (exists s,
     john 3 3 5 = Return s /\
     best_state lower (score_records (@BIC engine_all s) (candidates s)) = Some 3%Z /\
     @chosen engine_all (fst (select ByBIC (fresh s))) = Some 2%Z /\
     best_state higher (score_records (@DIC engine_all s) (candidates s)) = Some 3%Z /\
     @chosen engine_all (fst (select ByDIC (fresh s))) = Some 2%Z)
  /\ (exists s,
        john 3 2 4 = Return s /\
        best_state lower (score_records (@BIC engine_no2 s) (candidates s)) = Some 3%Z /\
        @chosen engine_no2 (fst (select ByBIC (fresh s))) = None /\
        best_state higher (score_records (@DIC engine_no2 s) (candidates s)) = Some 3%Z /\
        @chosen engine_no2 (fst (select ByDIC (fresh s))) = None).
Proof.
  split; eexists; (split; [ reflexivity | ]); repeat split; vm_compute; reflexivity.
Qed.

(** C2: SelectorCV empties its score list at every fold, so what it compares
    with the best score is one fold's score, never the average over the
    folds of a candidate.  For a word with two instances, 2 states score
    -10 and -100 on the two folds (average -55) and 3 states score -20 on
    both (average -20): the higher average belongs to 3 states, and the
    model returned has 2. *)
Theorem cv_compares_single_folds :
  exists s,
    pair 3 2 3 false = Return s /\
    map (fun n => map (@fold_score engine_folds s n) (folds_of s)) (candidates s)
    = [[Some (-10)%float; Some (-100)%float]; [Some (-20)%float; Some (-20)%float]] /\
    map (@cv_average engine_folds s) (candidates s)
    = [Some (-55)%float; Some (-20)%float] /\
    best_state higher (score_records (@cv_average engine_folds s) (candidates s))
    = Some 3%Z /\
    @chosen engine_folds (fst (select ByCV (fresh s))) = Some 2%Z.
Proof.
  eexists. split; [ reflexivity | ]. repeat split; vm_compute; reflexivity.
Qed.

(** C3: when no candidate yields a score SelectorBIC and SelectorDIC retrain
    with [n_constant + 2] states, not with [n_constant].  Where training
    succeeds with one state only and the fallback is 1, [base_model(1)]
    gives a model and both selectors give none, while SelectorCV gives what
    [base_model(1)] gives; where scoring always fails and the fallback is 3,
    both selectors return a model with 5 states. *)
Theorem fallback_adds_two_states :
  (exists s,
     john 1 2 4 = Return s /\
     map (@trained engine_one_state s) (candidates s) = [None; None; None] /\
     @chosen engine_one_state
       (fst (base_model (ModelSelector.n_constant s) (fresh s))) = Some 1%Z /\
     fst (@select engine_one_state ByBIC (fresh s)) = Return None /\
     fst (@select engine_one_state ByDIC (fresh s)) = Return None /\
     fst (@select engine_one_state ByCV (fresh s))
     = fst (base_model (ModelSelector.n_constant s) (fresh s)))
  /\ (exists s,
        john 3 2 10 = Return s /\
        recorded (@BIC engine_no_score s) (candidates s) = [] /\
        recorded (@DIC engine_no_score s) (candidates s) = [] /\
        @chosen engine_no_score
          (fst (base_model (ModelSelector.n_constant s) (fresh s))) = Some 3%Z /\
        @chosen engine_no_score (fst (select ByBIC (fresh s))) = Some 5%Z /\
        @chosen engine_no_score (fst (select ByDIC (fresh s))) = Some 5%Z).
Proof.
  split; eexists; (split; [ reflexivity | ]); repeat split; vm_compute; reflexivity.
Qed.

(** C8: [select()] can report failure although candidates were trained and
    scored and the constant fallback would train.  With candidates 2, 3, 4
    of which only 2 fails to train and fallback 3, two scores are recorded
    and [base_model(3)] gives a model, yet SelectorBIC and SelectorDIC
    return [None]: they retrain with index 0 plus 2 states. *)
Theorem select_fails_without_exhaustion :
  exists s,
    john 3 2 4 = Return s /\
    List.length (recorded (@BIC engine_no2 s) (candidates s)) = 2%nat /\
    List.length (recorded (@DIC engine_no2 s) (candidates s)) = 2%nat /\
    @chosen engine_no2
      (fst (base_model (ModelSelector.n_constant s) (fresh s))) = Some 3%Z /\
    fst (@select engine_no2 ByBIC (fresh s)) = Return None /\
    fst (@select engine_no2 ByDIC (fresh s)) = Return None.
Proof.
  eexists. split; [ reflexivity | ]. repeat split; vm_compute; reflexivity.
Qed.

(** The specification's own scenario for C4: JOHN, two features, fifty
    rows, two states, log-likelihood -120, hence p = 11. *)
Lemma SelectorBIC_records_BIC_witness :
  exists s m,
    john 3 2 4 = Return s /\
    @trained engine_no4 s 2 = Some m /\
    loglik m (ModelSelector.X s) (ModelSelector.lengths s) = Some (-120)%float /\
    shape0 (ModelSelector.X s) = 50%nat /\
    np.float_of_Z 11 = 11%float /\
    n_features m = 2%nat /\
    fst (@SelectorBIC_body engine_no4 2 [] (fresh s))
    = Return [(240 + 11 * log_table 50)%float].
Proof.
  eexists. eexists.
  split; [ reflexivity | ].
  split; [ reflexivity | ].
  split; [ reflexivity | ].
  split; [ reflexivity | ].
  split; [ reflexivity | ].
  match goal with
  | |- n_features ?m = _ /\ fst (SelectorBIC_body _ _ (fresh ?s)) = _ =>
      pose proof (proj1 (proj2 (proj2 (@SelectorBIC_records_BIC engine_no4 (fresh s) 2 [])))
                    m (-120)%float eq_refl eq_refl) as H
  end.
  vm_compute in H. vm_compute. apply H; [ discriminate | reflexivity ].
Defined.

(** For C5, a catalog of three words: under three states JOHN's data scores
    -100, MARY's -150 and BOOK's -170, so that the mean of the others is
    -160 and DIC is 60, also in a process that turns RuntimeWarning into an
    exception, since nothing warns. *)
Lemma SelectorDIC_records_DIC_witness :
  exists s m,
    john_of_three 3 2 4 = Return s /\
    @trained engine_three s 3 = Some m /\
    logliks m (other_words s) = Some [(-150)%float; (-170)%float] /\
    loglik m (ModelSelector.X s) (ModelSelector.lengths s) = Some (-100)%float /\
    List.length (other_words s) = 2%nat /\
    @np.mean_warns engine_three [(-150)%float; (-170)%float] = false /\
    np.sub_warns (-100) (@np.mean engine_three [(-150)%float; (-170)%float]) = false /\
    fst (@SelectorDIC_body engine_three 3 []
           (under [("error", "RuntimeWarning")%string] (fresh s)))
    = Return [60%float].
Proof.
  eexists. eexists.
  split; [ reflexivity | ].
  split; [ reflexivity | ].
  split; [ reflexivity | ].
  split; [ reflexivity | ].
  split; [ reflexivity | ].
  split; [ reflexivity | ].
  split; [ reflexivity | ].
  match goal with
  | |- fst (SelectorDIC_body _ _ ?w) = _ =>
      pose proof (proj1 (proj2 (proj1 (proj2 (proj2
                    (@SelectorDIC_records_DIC engine_three w 3 [])))
                    _ [(-150)%float; (-170)%float] (-100)%float
                    eq_refl eq_refl eq_refl))) as H
  end.
  vm_compute in H. vm_compute. apply H. right. split; reflexivity.
Defined.

(** For C6: the word with two instances, scored by an engine whose scorer
    always fails, with fallback 3 and candidates 2 and 3. *)
Lemma SelectorCV_empty_folds_witness :
  exists s,
    pair 3 2 3 false = Return s /\
    (forall n split, In n (candidates s) -> In split (folds_of s) ->
                     @fold_score engine_no_score s n split = None) /\
    fst (@SelectorCV_select engine_no_score (fresh s))
    = fst (base_model (ModelSelector.n_constant s) (fresh s)) /\
    @chosen engine_no_score (fst (SelectorCV_select (fresh s))) = Some 3%Z.
Proof.
  eexists. split; [ reflexivity | ].
  match goal with
  | |- ?hyp /\ _ => assert (Hnone : hyp)
  end.
  { intros n split _ _. unfold fold_score.
    destruct (concat_selected (fst split) _) as [[X_train Y_train] | ]; [ | reflexivity ].
    destruct (concat_selected (snd split) _) as [[X_test Y_test] | ]; reflexivity. }
  split; [ exact Hnone | ].
  split; [ | vm_compute; reflexivity ].
  exact (proj2 (@SelectorCV_empty_folds_never_win engine_no_score (fresh _)) Hnone).
Defined.

(** For C7: a word with a single instance, fallback 3. *)
Lemma SelectorCV_single_instance_witness :
  exists s,
    once 3 2 4 = Return s /\
    (List.length (ModelSelector.sequences s) <= 1)%nat /\
    @SelectorCV_select engine_all (fresh s)
    = base_model 3 (snd (filterwarnings "ignore" "Warning" (fresh s))) /\
    calls (snd (@SelectorCV_select engine_all (fresh s)))
    = [fit_call (hyper_for s 3) (ModelSelector.X s) (ModelSelector.lengths s)].
Proof.
  eexists. split; [ reflexivity | ].
  match goal with
  | |- ?hyp /\ _ => assert (Hlen : hyp) by (vm_compute; lia)
  end.
  split; [ exact Hlen | ].
  exact (@SelectorCV_single_instance_falls_back engine_all (fresh _) Hlen).
Defined.

(** For C9: the word with two instances and no other word in the catalog,
    once built quiet and once built verbose, selected by SelectorDIC under
    no filter at all and under one that ignores RuntimeWarning. *)
Lemma select_deterministic_under_like_filters_witness :
  exists s1 s2,
    pair 3 2 3 false = Return s1 /\
    pair 3 2 3 true = Return s2 /\
    raises_RuntimeWarning (filters (@fresh engine_folds s1))
    = raises_RuntimeWarning
        (filters (@under engine_folds [("ignore", "RuntimeWarning")%string] (fresh s2))) /\
    exists r1 r2,
      fst (@select engine_folds ByDIC (fresh s1)) = Return r1 /\
      fst (@select engine_folds ByDIC
             (under [("ignore", "RuntimeWarning")%string] (fresh s2))) = Return r2 /\
      state_count r1 = state_count r2.
Proof.
  eexists. eexists.
  split; [ reflexivity | ].
  split; [ reflexivity | ].
  split; [ reflexivity | ].
  exact (@select_deterministic_under_like_filters engine_folds ByDIC
           pair_sequences pair_Xlengths "PAIR"%string 3%Z 2%Z 3%Z 14%Z false true _ _
           (fresh _) (under [("ignore", "RuntimeWarning")%string] (fresh _))
           eq_refl eq_refl eq_refl eq_refl (fun _ => eq_refl)).
Defined.

(** Against C9 as the specification words it: the same selector for the
    only word of a catalog, selected by SelectorDIC in a process with no
    warning filter and in one that turns RuntimeWarning into an exception.
    In the first every candidate records [nan] and the model returned has 2
    states; in the second no candidate records anything and the model
    returned has [n_constant + 2 = 5] states. *)
Lemma select_depends_on_warning_filters :
  exists s r1 r2,
    pair 3 2 3 false = Return s /\
    fst (@select engine_folds ByDIC (fresh s)) = Return r1 /\
    fst (@select engine_folds ByDIC
           (under [("error", "RuntimeWarning")%string] (fresh s))) = Return r2 /\
    @state_count engine_folds r1 = Some 2%Z /\
    @state_count engine_folds r2 = Some 5%Z.
Proof.
  eexists. eexists. eexists.
  split; [ reflexivity | ].
  split; [ vm_compute; reflexivity | ].
  split; [ vm_compute; reflexivity | ].
  split; reflexivity.
Qed.

(** Against C10 as the specification words it: in a process with no
    warning filter, a [select()] of each strategy leaves one or two behind
    for the rest of the process; under SelectorCV every warning of every
    later computation is ignored.  Neither entry is part of a model. *)
Lemma select_rewrites_warning_filters :
  exists s,
    john 3 2 4 = Return s /\
    filters (@fresh engine_no4 s) = [] /\
    filters (snd (@select engine_no4 Constant (fresh s))) = [ignore_deprecation] /\
    filters (snd (@select engine_no4 ByBIC (fresh s))) = [ignore_deprecation] /\
    filters (snd (@select engine_no4 ByDIC (fresh s))) = [ignore_deprecation] /\
    filters (snd (@select engine_no_score ByCV (fresh s)))
    = [ignore_deprecation; ignore_all] /\
    filters (snd (@select engine_all ByCV (fresh s))) = [ignore_all].
Proof.
  eexists.
  split; [ reflexivity | ].
  split; [ reflexivity | ].
  split; [ vm_compute; reflexivity | ].
  split; [ vm_compute; reflexivity | ].
  split; [ vm_compute; reflexivity | ].
  split; vm_compute; reflexivity.
Qed.

(** ** Further properties of the selectors *)

Section Further.

Context {E : Externals}.


Lemma base_model_stdout (num_states : Z) (w : World) :
  stdout (snd (base_model num_states w))
  = stdout w ++
    (if ModelSelector.verbose (self w)
     then [base_model_line (self w) num_states]
     else []).
Proof.
  unfold base_model, base_model_line, trained, hyper_for, filterwarnings, print.
  py_run.
  destruct (em_fit _ _ _); py_run;
    destruct (ModelSelector.verbose (self w)); py_run;
    try rewrite app_nil_r; reflexivity.
Qed.

(** What [base_model] prints: nothing when the selector is not verbose, and
    exactly one line when it is, naming the word and the state count and
    telling success from failure. *)
Theorem base_model_prints_one_line (num_states : Z) (w : World) :
  stdout (snd (base_model num_states w))
  = stdout w ++
    (if ModelSelector.verbose (self w)
     then [match trained (self w) num_states with
           | Some _ => "model created for " ++ ModelSelector.this_word (self w)
                       ++ " with " ++ str num_states ++ " states"
           | None => "failure on " ++ ModelSelector.this_word (self w)
                     ++ " with " ++ str num_states ++ " states"
           end]
     else [])%string.
Proof.
  rewrite base_model_stdout. unfold base_model_line.
  destruct (trained (self w) num_states); reflexivity.
Qed.

(** SelectorConstant trains once, with [n_constant] states, whatever the
    candidate range is, and returns what that training gives. *)
Theorem SelectorConstant_trains_once (w : World) :
  fst (SelectorConstant_select w)
  = Return (trained (self w) (ModelSelector.n_constant (self w)))
  /\ calls (snd (SelectorConstant_select w))
     = calls w ++ [fit_call (hyper_for (self w) (ModelSelector.n_constant (self w)))
                            (ModelSelector.X (self w))
                            (ModelSelector.lengths (self w))].
Proof.
  split; [ apply SelectorConstant_select_result | ].
  unfold SelectorConstant_select. py_run. apply base_model_calls.
Qed.

(** No strategy lets an exception out of [select()]: whatever the trainer
    and the scorer do, whatever the word's data, the call returns a model or
    [None]. *)
Theorem select_never_raises (k : strategy) (w : World) :
  exists r, fst (select k w) = Return r.
Proof. exact (select_returns k w). Qed.

(** Constructing a selector and selecting raises exactly when the word is
    missing from one of the two catalogs, and then it raises KeyError. *)
Theorem construct_and_select_KeyError (k : strategy)
  (seqs : dict (list instance)) (mats : dict (matrix * list nat)) (word : string)
  (n_constant min_n max_n seed : Z) (verbose : bool) :
  match construct_and_select k
          (ModelSelector_init seqs mats word n_constant min_n max_n seed verbose) with
  | Return _ => getitem seqs word <> None /\ getitem mats word <> None
  | Raise e => e = KeyError /\ (getitem seqs word = None \/ getitem mats word = None)
  end.
Proof.
  unfold ModelSelector_init.
  destruct (getitem seqs word) as [sq | ]; cbn [construct_and_select].
  - destruct (getitem mats word) as [[X lengths] | ]; cbn [construct_and_select].
    + match goal with
      | |- context [select k ?w] => destruct (select_returns k w) as [r Hr]
      end.
      rewrite Hr. split; discriminate.
    + split; [ reflexivity | right; reflexivity ].
  - split; [ reflexivity | left; reflexivity ].
Qed.

End Further.

Section Bounds.

Context {E : Externals}.






Lemma range_empty (a b : Z) : (b <= a)%Z -> range a b = [].
Proof.
  intros Hle. unfold range. replace (Z.to_nat (b - a)) with 0%nat by lia.
  reflexivity.
Qed.

(** With an empty candidate range, [max_n_components < min_n_components],
    every strategy goes straight to its fallback and does nothing else:
    SelectorBIC and SelectorDIC train [n_constant + 2] states, SelectorCV
    trains [n_constant] states. *)
Theorem empty_range_falls_back (w : World) :
  (ModelSelector.max_n_components (self w) < ModelSelector.min_n_components (self w))%Z ->
  SelectorBIC_select w
  = base_model (ModelSelector.n_constant (self w) + 2)
      (snd (filterwarnings "ignore" "DeprecationWarning" w))
  /\ SelectorDIC_select w
     = base_model (ModelSelector.n_constant (self w) + 2)
         (snd (filterwarnings "ignore" "DeprecationWarning" w))
  /\ SelectorCV_select w
     = base_model (ModelSelector.n_constant (self w))
         (snd (filterwarnings "ignore" "Warning" w)).
Proof.
  intros Hlt.
  assert (Hr : range (ModelSelector.min_n_components (self w))
                 (ModelSelector.max_n_components (self w) + 1) = [])
    by (apply range_empty; lia).
  repeat split.
  - unfold SelectorBIC_select, filterwarnings. py_run. rewrite Hr. reflexivity.
  - unfold SelectorDIC_select, filterwarnings. py_run. rewrite Hr. reflexivity.
  - unfold SelectorCV_select, filterwarnings. py_run. rewrite Hr. reflexivity.
Qed.

Lemma sub_nan_r (x : float) : is_nan (x - nan)%float = true.
Proof.
  unfold is_nan. rewrite FloatAxioms.eqb_spec, FloatAxioms.sub_spec.
  replace (Prim2SF nan) with S754_nan by reflexivity.
  unfold SF64sub, SFsub.
  destruct (Prim2SF x); reflexivity.
Qed.

Lemma DIC_alone_is_nan (s : ModelSelector.t) (n : Z) (b : float) :
  other_words s = [] -> DIC s n = Some b -> is_nan b = true.
Proof.
  intros Ho. unfold DIC. rewrite Ho. cbn [logliks].
  destruct (trained s n) as [m | ]; [ | discriminate ].
  destruct (loglik m _ _) as [L | ]; [ | discriminate ].
  intros H. injection H as <-. rewrite mean_nil. apply sub_nan_r.
Qed.

Lemma recorded_alone_is_nan (s : ModelSelector.t) (l : list Z) :
  other_words s = [] ->
  Forall (fun b => is_nan b = true) (recorded (DIC s) l).
Proof.
  intros Ho. induction l as [ | n l IH]; [ constructor | ].
  rewrite recorded_cons. unfold score_list.
  destruct (DIC s n) as [b | ] eqn:Hb; [ | exact IH ].
  constructor; [ exact (DIC_alone_is_nan s n Ho Hb) | exact IH ].
Qed.

Lemma recorded_alone_fatal (s : ModelSelector.t) (l : list Z) :
  other_words s = [] -> recorded (DIC_at true s) l = [].
Proof.
  intros Ho. induction l as [ | n l IH]; [ reflexivity | ].
  rewrite recorded_cons, (DIC_at_alone _ _ Ho). exact IH.
Qed.

(** When the catalog holds no other word, the mean of the other words'
    scores is the mean of nothing.  Under warning filters that let the
    RuntimeWarning pass every recorded DIC is [nan], the first one counts as
    the maximum, and SelectorDIC retrains with 2 states whenever a
    candidate was scored at all; under filters that turn it into an
    exception no DIC is recorded and SelectorDIC retrains with
    [n_constant + 2] states. *)
Theorem SelectorDIC_alone_picks_two (w : World) :
  other_words (self w) = [] ->
  Forall (fun b => is_nan b = true) (recorded (DIC (self w)) (candidates (self w)))
  /\ (raises_RuntimeWarning (filters w) = false ->
      fst (SelectorDIC_select w)
      = Return (trained (self w)
                  match recorded (DIC (self w)) (candidates (self w)) with
                  | [] => (ModelSelector.n_constant (self w) + 2)%Z
                  | _ :: _ => 2%Z
                  end))
  /\ (raises_RuntimeWarning (filters w) = true ->
      fst (for_each (candidates (self w)) SelectorDIC_body [] w) = Return []
      /\ fst (SelectorDIC_select w)
         = Return (trained (self w) (ModelSelector.n_constant (self w) + 2)%Z)).
Proof.
  intros Ho.
  pose proof (recorded_alone_is_nan (self w) (candidates (self w)) Ho) as Hnan.
  split; [ exact Hnan | ].
  split; intros Hf.
  - rewrite SelectorDIC_select_result, Hf.
    change (DIC_at false (self w)) with (DIC (self w)).
    destruct (recorded _ _) as [ | b bs]; [ reflexivity | ].
    inversion Hnan as [ | ? ? Hb _ ]; subst.
    cbn [np.argmax]. rewrite Hb. reflexivity.
  - rewrite SelectorDIC_loop, SelectorDIC_select_result, Hf.
    rewrite (recorded_alone_fatal _ _ Ho). split; reflexivity.
Qed.

End Bounds.

Section Calls.

Context {E : Externals}.

Lemma SelectorBIC_body_calls (n : Z) (bic_scores : list float) (w : World) :
  calls (snd (SelectorBIC_body n bic_scores w)) = calls w ++ BIC_calls (self w) n.
Proof.
  unfold SelectorBIC_body, try_except. unfold bind at 1.
  pose proof (base_model_result n w) as Hr.
  pose proof (base_model_self n w) as Hs.
  pose proof (base_model_calls n w) as Hc.
  destruct (base_model n w) as [o w']. cbn [fst snd] in Hr, Hs, Hc. subst o.
  unfold BIC_calls. rewrite <- Hs.
  destruct (trained (self w') n) as [m | ];
    unfold math_log, get_n_features, float_of_int, shape0; py_run.
  - destruct (forward_score _ _ _ _) as [L | ]; py_run.
    + destruct (List.length (ModelSelector.X (self w'))); py_run;
        [ | destruct (is_infinity _); py_run ];
        rewrite Hc, Hs, <- app_assoc; reflexivity.
    + rewrite Hc, Hs, <- app_assoc. reflexivity.
  - rewrite Hc, Hs. reflexivity.
Qed.

Lemma SelectorBIC_loop_calls (l : list Z) (bic_scores : list float) (w : World) :
  calls (snd (for_each l SelectorBIC_body bic_scores w))
  = calls w ++ flat_map (BIC_calls (self w)) l.
Proof.
  revert bic_scores w. induction l as [ | n l IH]; intros bic_scores w;
    cbn [for_each flat_map].
  - simpl. rewrite app_nil_r. reflexivity.
  - unfold bind.
    pose proof (SelectorBIC_body_result n bic_scores w) as Hr.
    pose proof (proj1 (respects_SelectorBIC_body n bic_scores) w) as Hs.
    pose proof (SelectorBIC_body_calls n bic_scores w) as Hc.
    destruct (SelectorBIC_body n bic_scores w) as [o w']. cbn [fst snd] in Hr, Hs, Hc.
    subst o. rewrite IH, Hs, Hc, <- app_assoc. reflexivity.
Qed.

(** The external calls of SelectorBIC, in order: for every candidate in
    ascending order one training, followed by one scoring when the training
    gave a model, and at the end one more training, of the state count it
    returns.  It calls nothing else, and a chosen model is trained twice. *)
Theorem SelectorBIC_calls (w : World) :
  calls (snd (SelectorBIC_select w))
  = calls w
    ++ flat_map (BIC_calls (self w)) (candidates (self w))
    ++ [fit_call (hyper_for (self w) (BIC_choice (self w)))
                 (ModelSelector.X (self w)) (ModelSelector.lengths (self w))].
Proof.
  unfold SelectorBIC_select, filterwarnings, BIC_choice, candidates. py_run.
  match goal with
  | |- context [for_each ?l _ [] ?w1] =>
      pose proof (SelectorBIC_loop l [] w1) as Hr;
      pose proof (proj1 (respects_for_each l SelectorBIC_body
                           respects_SelectorBIC_body []) w1) as Hs;
      pose proof (SelectorBIC_loop_calls l [] w1) as Hc;
      destruct (for_each l SelectorBIC_body [] w1) as [o w2]
  end.
  cbn [fst snd self calls app] in Hr, Hs, Hc. subst o.
  destruct (recorded _ _) as [ | b bs]; unfold np_argmin, np.argmin; py_run;
    rewrite base_model_calls, Hc, Hs, <- app_assoc; reflexivity.
Qed.

(** SelectorBIC reads nothing of the catalogs but the word's own matrix and
    lengths: two selectors with the same matrix, lengths, seed, range and
    fallback choose alike, whatever the other words, the word's name and its
    instance list are. *)
Theorem SelectorBIC_reads_own_matrix_only (w1 w2 : World) :
  ModelSelector.X (self w1) = ModelSelector.X (self w2) ->
  ModelSelector.lengths (self w1) = ModelSelector.lengths (self w2) ->
  ModelSelector.random_state (self w1) = ModelSelector.random_state (self w2) ->
  ModelSelector.min_n_components (self w1) = ModelSelector.min_n_components (self w2) ->
  ModelSelector.max_n_components (self w1) = ModelSelector.max_n_components (self w2) ->
  ModelSelector.n_constant (self w1) = ModelSelector.n_constant (self w2) ->
  fst (SelectorBIC_select w1) = fst (SelectorBIC_select w2).
Proof.
  intros HX Hl Hr Hmin Hmax Hc.
  rewrite !SelectorBIC_select_result.
  assert (Ht : forall n, trained (self w1) n = trained (self w2) n).
  { intros n. unfold trained, hyper_for. rewrite HX, Hl, Hr. reflexivity. }
  assert (Hb : forall n, BIC (self w1) n = BIC (self w2) n).
  { intros n. unfold BIC. rewrite Ht, HX, Hl. reflexivity. }
  unfold candidates, recorded. rewrite Hmin, Hmax, Hc.
  rewrite (flat_map_ext _ _ (fun n => f_equal score_list (Hb n))).
  rewrite Ht. reflexivity.
Qed.

End Calls.

Section FoldModels.

Context {E : Externals}.

Lemma SelectorCV_fold_model (n : Z) (split : list nat * list nat) (loc : cv_locals)
  (w : World) :
  valid_split (List.length (ModelSelector.sequences (self w))) split ->
  exists loc',
    fst (SelectorCV_fold n split loc w) = Return loc' /\
    (best_model loc' = best_model loc
     \/ (best_model loc' = fold_model (self w) n split /\
         best_model loc' <> None /\
         fold_score (self w) n split <> None)).
Proof.
  destruct split as [train_x test_x]. intros [Htr Hte]. simpl in Htr, Hte.
  destruct (concat_selected_valid _ Htr) as [[X_train Y_train] Ctr].
  destruct (concat_selected_valid _ Hte) as [[X_test Y_test] Cte].
  unfold fold_score, fold_model, SelectorCV_fold. cbn [fst snd].
  py_run. rewrite Ctr. py_run. rewrite Cte. py_run.
  destruct (em_fit _ _ _) as [p | ]; py_run.
  - destruct (forward_score _ _ _ _) as [l | ]; py_run.
    + destruct (best_score loc <? np.mean [l])%float; py_run; eexists;
        (split; [ reflexivity | ]); cbn [best_model].
      * right. repeat split; discriminate.
      * left. reflexivity.
    + rewrite mean_nil, ltb_nan_r. eexists. split; [ reflexivity | left; reflexivity ].
  - rewrite mean_nil, ltb_nan_r. eexists. split; [ reflexivity | left; reflexivity ].
Qed.

Lemma SelectorCV_folds_model (cands : list Z) (n : Z) (folds : list (list nat * list nat))
  (loc : cv_locals) (w : World) :
  In n cands ->
  (2 <= List.length (ModelSelector.sequences (self w)))%nat ->
  (forall split, In split folds -> In split (folds_of (self w))) ->
  Forall (valid_split (List.length (ModelSelector.sequences (self w)))) folds ->
  kept_from (self w) cands (best_model loc) ->
  exists loc',
    fst (for_each folds (SelectorCV_fold n) loc w) = Return loc' /\
    kept_from (self w) cands (best_model loc').
Proof.
  intros Hn Hlen. revert loc w Hlen.
  induction folds as [ | split folds IH]; intros loc w Hlen Hsub Hv Hinv;
    cbn [for_each].
  - exists loc. split; [ reflexivity | exact Hinv ].
  - inversion Hv as [ | ? ? Hsplit Hfolds ]; subst.
    destruct (@SelectorCV_fold_model n split loc w Hsplit) as (loc1 & Hr & Hstep).
    pose proof (proj1 (respects_SelectorCV_fold n split loc) w) as Hs.
    unfold bind.
    destruct (SelectorCV_fold n split loc w) as [o w1]. cbn [fst snd] in Hr, Hs.
    subst o. rewrite <- Hs in *.
    apply IH; try assumption.
    + intros sp Hin. apply Hsub. right. exact Hin.
    + destruct Hstep as [Hsame | (Hm & Hsome & Hscore)].
      * rewrite Hsame. exact Hinv.
      * right. exists n, split. repeat split; try assumption.
        apply Hsub. left. reflexivity.
Qed.

Lemma SelectorCV_body_model (cands : list Z) (n : Z) (loc : cv_locals) (w : World) :
  In n cands ->
  kept_from (self w) cands (best_model loc) ->
  exists loc',
    fst (SelectorCV_body n loc w) = Return loc' /\
    kept_from (self w) cands (best_model loc').
Proof.
  intros Hn Hinv.
  unfold SelectorCV_body, KFold, KFold_split. py_run.
  destruct (Nat.leb_spec (List.length (ModelSelector.sequences (self w))) 1) as [Hle | Hgt].
  - exists loc. split; [ reflexivity | exact Hinv ].
  - destruct (Nat.leb_spec (Nat.min 3 (List.length (ModelSelector.sequences (self w)))) 1)
      as [Hbad | _]; [ lia | ].
    py_run.
    destruct (Nat.ltb_spec (List.length (ModelSelector.sequences (self w)))
                (Nat.min 3 (List.length (ModelSelector.sequences (self w)))))
      as [Hbad | _]; [ lia | ].
    py_run.
    match goal with
    | |- context [for_each _ _ loc ?w2] =>
        apply (@SelectorCV_folds_model cands n (folds_of (self w)) loc w2)
    end; cbn [self]; try assumption; try lia.
    + intros split Hin. exact Hin.
    + apply folds_of_valid. lia.
Qed.

Lemma SelectorCV_loop_model (cands l : list Z) (loc : cv_locals) (w : World) :
  (forall n, In n l -> In n cands) ->
  kept_from (self w) cands (best_model loc) ->
  exists loc',
    fst (for_each l SelectorCV_body loc w) = Return loc' /\
    kept_from (self w) cands (best_model loc').
Proof.
  revert loc w. induction l as [ | n l IH]; intros loc w Hsub Hinv; cbn [for_each].
  - exists loc. split; [ reflexivity | exact Hinv ].
  - destruct (@SelectorCV_body_model cands n loc w (Hsub n (or_introl eq_refl)) Hinv)
      as (loc1 & Hr & Hinv1).
    pose proof (proj1 (respects_SelectorCV_body n loc) w) as Hs.
    unfold bind.
    destruct (SelectorCV_body n loc w) as [o w1]. cbn [fst snd] in Hr, Hs.
    subst o. rewrite <- Hs in *.
    apply IH; [ | exact Hinv1 ].
    intros m Hm. apply Hsub. right. exact Hm.
Qed.

(** What SelectorCV returns is either what [base_model(n_constant)] gives,
    or a model fitted in one fold: for a candidate state count, on the
    training instances of one of the word's folds only, that fold having
    been scored; the latter needs a word with at least two instances.  The
    model is returned as the fold left it, it is not fitted again on the
    full data. *)
Theorem SelectorCV_returns_fold_model (w : World) :
  exists r,
    fst (SelectorCV_select w) = Return r /\
    (r = trained (self w) (ModelSelector.n_constant (self w))
     \/ exists n split,
          In n (candidates (self w)) /\ In split (folds_of (self w)) /\
          r = fold_model (self w) n split /\ r <> None /\
          fold_score (self w) n split <> None /\
          (2 <= List.length (ModelSelector.sequences (self w)))%nat).
Proof.
  destruct (SelectorCV_select_cases w) as (loc & w1 & Hs & Hr & Hsel).
  destruct (@SelectorCV_loop_model (candidates (self w)) (candidates (self w))
              {| best_score := neg_infinity; best_model := None; _model := None |} w1)
    as (loc' & Hr' & Hinv).
  - intros n Hn. exact Hn.
  - left. reflexivity.
  - rewrite Hr in Hr'. injection Hr' as <-.
    rewrite Hs in Hinv.
    eexists. split; [ exact Hsel | ].
    destruct Hinv as [Hnone | (n & split & Hn & Hin & Hm & Hsome & Hscore & Hlen)].
    + rewrite Hnone. left. reflexivity.
    + right. exists n, split.
      destruct (best_model loc) as [m | ]; [ | congruence ].
      repeat split; assumption.
Qed.

End FoldModels.

Section FoldCalls.

Context {E : Externals}.

Lemma SelectorCV_fold_calls (n : Z) (split : list nat * list nat) (loc : cv_locals)
  (w : World) :
  valid_split (List.length (ModelSelector.sequences (self w))) split ->
  calls (snd (SelectorCV_fold n split loc w))
  = calls w ++ CV_fold_calls (self w) n split.
Proof.
  destruct split as [train_x test_x]. intros [Htr Hte]. simpl in Htr, Hte.
  destruct (concat_selected_valid _ Htr) as [[X_train Y_train] Ctr].
  destruct (concat_selected_valid _ Hte) as [[X_test Y_test] Cte].
  unfold CV_fold_calls, fold_model, SelectorCV_fold. cbn [fst snd].
  py_run. rewrite Ctr. py_run. rewrite Cte. py_run.
  destruct (em_fit _ _ _) as [p | ]; py_run.
  - destruct (forward_score _ _ _ _) as [l | ]; py_run.
    + destruct (best_score loc <? np.mean [l])%float; py_run;
        rewrite <- !app_assoc; reflexivity.
    + rewrite mean_nil, ltb_nan_r. cbn [snd calls]. rewrite <- !app_assoc. reflexivity.
  - rewrite mean_nil, ltb_nan_r. cbn [snd calls]. rewrite <- !app_assoc. reflexivity.
Qed.

Lemma SelectorCV_folds_calls (n : Z) (folds : list (list nat * list nat))
  (loc : cv_locals) (w : World) :
  Forall (valid_split (List.length (ModelSelector.sequences (self w)))) folds ->
  calls (snd (for_each folds (SelectorCV_fold n) loc w))
  = calls w ++ flat_map (CV_fold_calls (self w) n) folds.
Proof.
  revert loc w. induction folds as [ | split folds IH]; intros loc w Hv;
    cbn [for_each flat_map].
  - simpl. rewrite app_nil_r. reflexivity.
  - inversion Hv as [ | ? ? Hsplit Hfolds ]; subst.
    destruct (@SelectorCV_fold_returns _ n split loc w Hsplit) as (loc1 & Hr & _).
    pose proof (proj1 (respects_SelectorCV_fold n split loc) w) as Hs.
    pose proof (@SelectorCV_fold_calls n split loc w Hsplit) as Hc.
    unfold bind.
    destruct (SelectorCV_fold n split loc w) as [o w1]. cbn [fst snd] in Hr, Hs, Hc.
    subst o. rewrite <- Hs in Hfolds.
    rewrite (IH loc1 w1 Hfolds), Hs, Hc, <- app_assoc. reflexivity.
Qed.

Lemma SelectorCV_body_calls (n : Z) (loc : cv_locals) (w : World) :
  calls (snd (SelectorCV_body n loc w)) = calls w ++ CV_calls (self w) n.
Proof.
  unfold SelectorCV_body, CV_calls, KFold, KFold_split. py_run.
  destruct (Nat.leb_spec (List.length (ModelSelector.sequences (self w))) 1) as [Hle | Hgt].
  - simpl. rewrite app_nil_r. reflexivity.
  - destruct (Nat.leb_spec (Nat.min 3 (List.length (ModelSelector.sequences (self w)))) 1)
      as [Hbad | _]; [ lia | ].
    py_run.
    destruct (Nat.ltb_spec (List.length (ModelSelector.sequences (self w)))
                (Nat.min 3 (List.length (ModelSelector.sequences (self w)))))
      as [Hbad | _]; [ lia | ].
    py_run.
    match goal with
    | |- context [for_each ?fl _ loc ?w2] =>
        rewrite (@SelectorCV_folds_calls n fl loc w2)
    end.
    + cbn [self calls]. rewrite <- !app_assoc. reflexivity.
    + cbn [self]. apply folds_of_valid. lia.
Qed.

Lemma SelectorCV_loop_calls (l : list Z) (loc : cv_locals) (w : World) :
  calls (snd (for_each l SelectorCV_body loc w))
  = calls w ++ flat_map (CV_calls (self w)) l.
Proof.
  revert loc w. induction l as [ | n l IH]; intros loc w; cbn [for_each flat_map].
  - simpl. rewrite app_nil_r. reflexivity.
  - destruct (SelectorCV_body_returns n loc w) as (loc1 & Hr & _).
    pose proof (proj1 (respects_SelectorCV_body n loc) w) as Hs.
    pose proof (SelectorCV_body_calls n loc w) as Hc.
    unfold bind.
    destruct (SelectorCV_body n loc w) as [o w1]. cbn [fst snd] in Hr, Hs, Hc.
    subst o. rewrite IH, Hs, Hc, <- app_assoc. reflexivity.
Qed.

(** The external calls of SelectorCV, in order: for every candidate a new
    splitter with [min(3, number of instances)] folds and, per fold, the
    assembly of the training and test data, one training on the training
    part and one scoring when that training gave a model; at the very end
    the fallback's training on the full data, exactly when the call returns
    what [base_model(n_constant)] gives because no fold model was kept. *)
Theorem SelectorCV_calls (w : World) :
  exists tail,
    calls (snd (SelectorCV_select w))
    = calls w ++ flat_map (CV_calls (self w)) (candidates (self w)) ++ tail /\
    ((tail = [] /\ exists m, fst (SelectorCV_select w) = Return (Some m))
     \/ (tail = [fit_call (hyper_for (self w) (ModelSelector.n_constant (self w)))
                          (ModelSelector.X (self w)) (ModelSelector.lengths (self w))]
         /\ fst (SelectorCV_select w)
            = Return (trained (self w) (ModelSelector.n_constant (self w))))).
Proof.
  unfold SelectorCV_select, filterwarnings, candidates. py_run.
  match goal with
  | |- context [for_each ?l _ ?loc0 ?w1] =>
      destruct (SelectorCV_loop_returns l loc0 w1) as (loc & Hr & _);
      pose proof (proj1 (respects_for_each l SelectorCV_body
                           respects_SelectorCV_body loc0) w1) as Hs;
      pose proof (SelectorCV_loop_calls l loc0 w1) as Hc;
      destruct (for_each l SelectorCV_body loc0 w1) as [o w2]
  end.
  cbn [fst snd self calls] in Hr, Hs, Hc. subst o.
  destruct (best_model loc) as [m | ]; py_run.
  - exists []. rewrite app_nil_r. split; [ exact Hc | ].
    left. split; [ reflexivity | ]. exists m. reflexivity.
  - eexists. rewrite base_model_calls, base_model_result, Hc, Hs, <- app_assoc.
    split; [ reflexivity | ].
    right. split; reflexivity.
Qed.

End FoldCalls.

Section Silence.

Context {E : Externals}.

Lemma silent_ret {A : Type} (a : A) : silent (ret a).
Proof. intros w _. split; reflexivity. Qed.

Lemma silent_bind {A B : Type} (c : Py A) (k : A -> Py B) :
  silent c -> (forall a, silent (k a)) -> silent (bind c k).
Proof.
  intros Hc Hk w Hq. unfold bind. destruct (Hc w Hq) as [Ho Hs].
  destruct (c w) as [[a | e] w1]; cbn [fst snd] in *; [ | split; assumption ].
  destruct (Hk a w1) as [Ho1 Hs1]; [ rewrite Hs; exact Hq | ].
  split; congruence.
Qed.

Lemma silent_try {A : Type} (c h : Py A) :
  silent c -> silent h -> silent (try_except c h).
Proof.
  intros Hc Hh w Hq. unfold try_except. destruct (Hc w Hq) as [Ho Hs].
  destruct (c w) as [[a | e] w1]; cbn [fst snd] in *; [ split; assumption | ].
  destruct (Hh w1) as [Ho1 Hs1]; [ rewrite Hs; exact Hq | ].
  split; congruence.
Qed.

Lemma silent_for_each {A S : Type} (l : list A) (body : A -> S -> Py S) :
  (forall a s, silent (body a s)) -> forall s, silent (for_each l body s).
Proof.
  intros Hbody. induction l as [ | a l IH]; intros s; cbn [for_each].
  - apply silent_ret.
  - apply silent_bind; [ apply Hbody | exact IH ].
Qed.

Lemma silent_raise {A : Type} (e : exn) : silent (@raise _ A e).
Proof. intros w _. split; reflexivity. Qed.

Lemma silent_attr {A : Type} (f : ModelSelector.t -> A) : silent (attr f).
Proof. intros w _. split; reflexivity. Qed.

Lemma silent_record (c : call) : silent (record c).
Proof. intros w _. split; reflexivity. Qed.

Lemma silent_filterwarnings (action category : string) :
  silent (filterwarnings action category).
Proof. intros w _. split; reflexivity. Qed.

Lemma silent_base_model (n : Z) : silent (base_model n).
Proof.
  intros w Hq. split; [ | apply base_model_self ].
  rewrite base_model_stdout, Hq, app_nil_r. reflexivity.
Qed.

Lemma silent_warn_RuntimeWarning : silent warn_RuntimeWarning.
Proof.
  intros w _. unfold warn_RuntimeWarning.
  destruct (raises_RuntimeWarning (filters w)); split; reflexivity.
Qed.

Ltac silent_step :=
  match goal with
  | |- silent warn_RuntimeWarning => apply silent_warn_RuntimeWarning
  | |- silent (bind _ _) => apply silent_bind; [ | intros ? ]
  | |- silent (try_except _ _) => apply silent_try
  | |- silent (for_each _ _ _) => apply silent_for_each; intros ? ?
  | |- silent (ret _) => apply silent_ret
  | |- silent (raise _) => apply silent_raise
  | |- silent (attr _) => apply silent_attr
  | |- silent (record _) => apply silent_record
  | |- silent (filterwarnings _ _) => apply silent_filterwarnings
  | |- silent (base_model _) => apply silent_base_model
  | |- silent (match ?x with _ => _ end) => destruct x
  | |- silent (if ?b then _ else _) => destruct b
  end.

Lemma silent_SelectorDIC_other (model : option GaussianHMM)
  (item : string * (matrix * list nat)) (acc : list float) :
  silent (SelectorDIC_other model item acc).
Proof.
  destruct item as [word [X lengths]].
  unfold SelectorDIC_other, score. repeat silent_step.
Qed.

Lemma silent_SelectorCV_fold (n : Z) (split : list nat * list nat) (loc : cv_locals) :
  silent (SelectorCV_fold n split loc).
Proof.
  destruct split as [train_x test_x].
  unfold SelectorCV_fold, combine_sequences, GaussianHMM_fit, score, local.
  repeat silent_step.
Qed.

(** A selector that is not verbose prints nothing, whatever the strategy
    and whatever fails on the way. *)
Theorem quiet_select_prints_nothing (k : strategy) (w : World) :
  ModelSelector.verbose (self w) = false ->
  stdout (snd (select k w)) = stdout w.
Proof.
  intros Hq.
  assert (Hsil : silent (select k)).
  { destruct k; cbn [select];
      unfold SelectorConstant_select, SelectorBIC_select, SelectorDIC_select,
        SelectorCV_select, SelectorBIC_body, SelectorDIC_body, SelectorCV_body,
        KFold, KFold_split, score, get_n_features, math_log, float_of_int,
        np_mean, np_sub, np_argmin, np_argmax;
      cbv zeta;
      repeat first [ apply silent_SelectorDIC_other
                   | apply silent_SelectorCV_fold
                   | silent_step ]. }
  exact (proj1 (Hsil w Hq)).
Qed.

End Silence.

(** ** Runs that instantiate the further properties *)

(** JOHN with the range 5..4, which holds no candidate. *)
Lemma empty_range_witness :
  exists s,
    john 3 5 4 = Return s /\
    (ModelSelector.max_n_components s < ModelSelector.min_n_components s)%Z /\
    @chosen engine_all (fst (SelectorBIC_select (fresh s))) = Some 5%Z /\
    @chosen engine_all (fst (SelectorDIC_select (fresh s))) = Some 5%Z /\
    @chosen engine_all (fst (SelectorCV_select (fresh s))) = Some 3%Z.
Proof.
  eexists. split; [ reflexivity | ].
  match goal with
  | |- ?hyp /\ _ => assert (Hlt : hyp) by (vm_compute; reflexivity)
  end.
  split; [ exact Hlt | ].
  destruct (@empty_range_falls_back engine_all (fresh _) Hlt) as (HB & HD & HC).
  rewrite HB, HD, HC. repeat split; vm_compute; reflexivity.
Defined.

(** The catalog that holds the word PAIR alone, under no warning filter
    and under one that turns RuntimeWarning into an exception. *)
Lemma SelectorDIC_alone_witness :
  exists s,
    pair 3 2 3 false = Return s /\
    @other_words s = [] /\
    @chosen engine_folds (fst (SelectorDIC_select (fresh s))) = Some 2%Z /\
    @chosen engine_folds
      (fst (SelectorDIC_select
              (under [("error", "RuntimeWarning")%string] (fresh s)))) = Some 5%Z.
Proof.
  eexists. split; [ reflexivity | ].
  match goal with
  | |- ?hyp /\ _ => assert (Ho : hyp) by reflexivity
  end.
  split; [ exact Ho | ].
  split.
  - rewrite (proj1 (proj2 (@SelectorDIC_alone_picks_two engine_folds (fresh _) Ho))
               eq_refl).
    vm_compute. reflexivity.
  - rewrite (proj2 (proj2 (proj2 (@SelectorDIC_alone_picks_two engine_folds
                                    (under [("error", "RuntimeWarning")%string]
                                       (fresh _)) Ho)) eq_refl)).
    vm_compute. reflexivity.
Defined.

(** JOHN's selector and a selector that shares nothing with it but the
    matrix, the lengths and the numbers. *)
Lemma SelectorBIC_reads_own_matrix_witness :
  exists s,
    john 3 2 4 = Return s /\
    ModelSelector.hwords s <> ModelSelector.hwords bare_john /\
    fst (@SelectorBIC_select engine_no4 (fresh s))
    = fst (@SelectorBIC_select engine_no4 (fresh bare_john)).
Proof.
  eexists. split; [ reflexivity | ].
  split; [ discriminate | ].
  apply (@SelectorBIC_reads_own_matrix_only engine_no4 (fresh _) (fresh bare_john));
    reflexivity.
Defined.

(** The quiet selector of PAIR under cross-validation. *)
Lemma quiet_select_witness :
  exists s,
    pair 3 2 3 false = Return s /\
    ModelSelector.verbose s = false /\
    stdout (snd (@select engine_folds ByCV (fresh s))) = [].
Proof.
  eexists. split; [ reflexivity | ].
  split; [ reflexivity | ].
  match goal with
  | |- stdout (snd (select _ (fresh ?s))) = _ =>
      exact (@quiet_select_prints_nothing engine_folds ByCV (fresh s) eq_refl)
  end.
Defined.

(** JOHN with the default start of the range, every candidate scored: the
    best BIC and the best DIC belong to 3 states, and 3 states are
    returned. *)
Lemma SelectorBIC_aligned_witness :
  exists s,
    john 3 2 4 = Return s /\
    ModelSelector.min_n_components s = 2%Z /\
    (forall n, In n (candidates s) ->
               exists b, @BIC engine_all s n = Some b /\ is_nan b = false) /\
    @chosen engine_all (fst (SelectorBIC_select (fresh s))) = Some 3%Z.
Proof.
  eexists. split; [ reflexivity | ].
  split; [ reflexivity | ].
  match goal with
  | |- ?hyp /\ _ => assert (Hall : hyp)
  end.
  { intros n Hn. vm_compute in Hn.
    destruct Hn as [<- | [<- | [<- | []]]]; eexists; split; vm_compute; reflexivity. }
  split; [ exact Hall | ].
  match goal with
  | |- chosen (fst (SelectorBIC_select (fresh ?s))) = _ =>
      rewrite (@SelectorBIC_best_when_aligned engine_all (fresh s) eq_refl Hall)
  end.
  vm_compute. reflexivity.
Defined.

Lemma SelectorDIC_aligned_witness :
  exists s,
    john 3 2 4 = Return s /\
    ModelSelector.min_n_components s = 2%Z /\
    (forall n, In n (candidates s) ->
               exists b, @DIC_at engine_all
                           (raises_RuntimeWarning (filters (@fresh engine_all s))) s n
                         = Some b /\ is_nan b = false) /\
    @chosen engine_all (fst (SelectorDIC_select (fresh s))) = Some 3%Z.
Proof.
  eexists. split; [ reflexivity | ].
  split; [ reflexivity | ].
  match goal with
  | |- ?hyp /\ _ => assert (Hall : hyp)
  end.
  { intros n Hn. vm_compute in Hn.
    destruct Hn as [<- | [<- | [<- | []]]]; eexists; split; vm_compute; reflexivity. }
  split; [ exact Hall | ].
  match goal with
  | |- chosen (fst (SelectorDIC_select (fresh ?s))) = _ =>
      rewrite (@SelectorDIC_best_when_aligned engine_all (fresh s) eq_refl Hall)
  end.
  vm_compute. reflexivity.
Defined.
